(* Verification model of ts_trove.eda: the UnivariateEDA engine
   (src/ts_trove/eda/univaritate_eda.py) and the parameter policy of
   UnivaritateEDAReport (src/ts_trove/eda/univariate_eda_report.py).

   Modelling decisions.
   - Python floats are exact rationals extended with +inf, -inf and NaN
     (rounding, underflow and overflow are not modelled).
   - A datetime64[ns] index holds int64 nanosecond counts since
     1970-01-01 (tz-naive), NaT being the int64 minimum; other index dtypes
     carry integer labels. Timestamp arithmetic is exact (int64 overflow is
     not modelled).
   - A pandas Series is its name and its (label, value) entries in order.
   - pandas.infer_freq follows _FrequencyInferer.get_freq of pandas 2.2 with
     all its rules (annual, quarterly, monthly, daily and weekly, business
     daily, week-of-month, business hour, intraday). An inferred frequency
     carries its alias and the offset to_offset builds from it.
   - pandas.date_range(start, end, freq) follows DatetimeArray._generate_range:
     generate_regular_range for Tick offsets, offsets._generate_range with
     the offsets' is_on_offset, rollforward, rollback and _apply otherwise.
   - Library numerics whose values no claim depends on (adfuller, the
     Yule-Walker PACF kernel, resampling, pandas reductions and rolling
     windows) are parameters of Section Engine. *)

From Stdlib Require Import String Ascii.
From Stdlib Require Import ZArith QArith List Bool Lia.
From Stdlib Require Import Reals.
From Stdlib Require Import Sorted Permutation Psatz.
Import ListNotations.
Open Scope string_scope.
Open Scope Z_scope.

(* ------------------------------------------------------------------ *)
(** * Python values and errors *)

Inductive fval : Type :=
| Fin (q : Q)
| PInf
| NInf
| NaN.

Definition Qlt_bool (x y : Q) : bool := negb (Qle_bool y x).

Definition is_nan (v : fval) : bool :=
  match v with NaN => true | _ => false end.

Definition is_finite (v : fval) : bool :=
  match v with Fin _ => true | _ => false end.

Definition fval_is_zero (v : fval) : bool :=
  match v with Fin q => Qeq_bool q 0 | _ => false end.

Definition fneg (v : fval) : fval :=
  match v with
  | Fin q => Fin (- q)%Q
  | PInf => NInf
  | NInf => PInf
  | NaN => NaN
  end.

Definition fadd (a b : fval) : fval :=
  match a, b with
  | NaN, _ | _, NaN => NaN
  | PInf, NInf | NInf, PInf => NaN
  | PInf, _ | _, PInf => PInf
  | NInf, _ | _, NInf => NInf
  | Fin x, Fin y => Fin (Qred (x + y))
  end.

Definition fsub (a b : fval) : fval := fadd a (fneg b).

(* sign of a float: 1, 0 or -1 (NaN gets 0) *)
Definition fsign (v : fval) : Z :=
  match v with
  | Fin q => if Qlt_bool 0 q then 1 else if Qlt_bool q 0 then -1 else 0
  | PInf => 1
  | NInf => -1
  | NaN => 0
  end.

Definition inf_of_sign (s : Z) : fval :=
  if s >? 0 then PInf else if s <? 0 then NInf else NaN.

Definition fmul (a b : fval) : fval :=
  match a, b with
  | NaN, _ | _, NaN => NaN
  | Fin x, Fin y => Fin (Qred (x * y))
  | _, _ => inf_of_sign (fsign a * fsign b)
  end.

Definition fdiv (a b : fval) : fval :=
  match a, b with
  | NaN, _ | _, NaN => NaN
  | Fin x, Fin y => if Qeq_bool y 0 then inf_of_sign (fsign a) else Fin (Qred (x / y))
  | Fin _, _ => Fin 0
  | _, Fin y => if Qeq_bool y 0 then a else inf_of_sign (fsign a * fsign b)
  | _, _ => NaN
  end.

(* IEEE "<": false as soon as one side is NaN *)
Definition flt (a b : fval) : bool :=
  match a, b with
  | NaN, _ | _, NaN => false
  | Fin x, Fin y => Qlt_bool x y
  | NInf, NInf | PInf, PInf => false
  | NInf, _ => true
  | _, PInf => true
  | _, _ => false
  end.

Inductive pyerr : Type :=
| ValueError (msg : string)
| PacfLagError (requested limit : Z)
| UnboundLocalError (var : string)
| TypeError (msg : string)
| KeyError (key : string)
| ZeroDivisionError
| LibError (what : string).

Inductive result (A : Type) : Type :=
| Ok (a : A)
| Err (e : pyerr).
Arguments Ok {A} a.
Arguments Err {A} e.

Definition bind {A B} (r : result A) (k : A -> result B) : result B :=
  match r with Ok a => k a | Err e => Err e end.

Notation "x <- r ;; k" := (bind r (fun x => k))
  (at level 61, r at next level, right associativity).

(* Python int -> str *)
Fixpoint digits_rev (fuel : nat) (n : Z) (acc : string) : string :=
  match fuel with
  | O => acc
  | S f =>
      let acc' := String (ascii_of_nat (48 + Z.to_nat (n mod 10))) acc in
      if n / 10 =? 0 then acc' else digits_rev f (n / 10) acc'
  end.

Definition py_str_int (z : Z) : string :=
  if z <? 0 then "-" ++ digits_rev 64 (- z) EmptyString else digits_rev 64 z EmptyString.

(* ------------------------------------------------------------------ *)
(** * pandas Series *)

Inductive index_dtype : Type := Datetime64 | Int64 | ObjectDtype.

Record series : Type := mkSeries {
  dtype : index_dtype;
  entries : list (Z * fval);
  sname : option string
}.

Definition labels (s : series) : list Z := map fst (entries s).
Definition values (s : series) : list fval := map snd (entries s).

(* pd.api.types.is_datetime64_any_dtype(index) *)
Definition is_datetime64_any_dtype (d : index_dtype) : bool :=
  match d with Datetime64 => true | _ => false end.

(* Series.diff(): first entry NaN, then v[i] - v[i-1], index kept *)
Fixpoint diff_from (prev : fval) (l : list (Z * fval)) : list (Z * fval) :=
  match l with
  | [] => []
  | (k, v) :: t => (k, fsub v prev) :: diff_from v t
  end.

Definition diff_entries (l : list (Z * fval)) : list (Z * fval) :=
  match l with
  | [] => []
  | (k, v) :: t => (k, NaN) :: diff_from v t
  end.

Definition series_diff (s : series) : series :=
  mkSeries (dtype s) (diff_entries (entries s)) (sname s).

(* Series.dropna(): drop every entry whose value is NaN (inf is kept) *)
Definition dropna (s : series) : series :=
  mkSeries (dtype s) (filter (fun e => negb (is_nan (snd e))) (entries s)) (sname s).

(* self.ts.diff().dropna() *)
Definition differenced (s : series) : series := dropna (series_diff s).

(* ------------------------------------------------------------------ *)
(** * Timestamps: datetime64[ns] values and the Gregorian calendar *)

(* A datetime64[ns] value is its int64 count of nanoseconds since
   1970-01-01 00:00 (Index.asi8); NaT is the int64 minimum. *)
Definition one_us : Z := 1000.
Definition one_ms : Z := 1000000.
Definition one_second : Z := 1000000000.
Definition one_minute : Z := 60000000000.
Definition one_hour : Z := 3600000000000.
Definition one_day : Z := 86400000000000.
Definition NaT : Z := -9223372036854775808.

Definition is_NaT (t : Z) : bool := t =? NaT.

(* days since 1970-01-01 of the proleptic Gregorian date y-m-d *)
Definition days_from_civil (y m d : Z) : Z :=
  let y' := if m <=? 2 then y - 1 else y in
  let era := y' / 400 in
  let yoe := y' mod 400 in
  let mp := (m + 9) mod 12 in
  let doy := (153 * mp + 2) / 5 + d - 1 in
  let doe := yoe * 365 + yoe / 4 - yoe / 100 + doy in
  era * 146097 + doe - 719468.

Record civil : Type := mkCivil { c_year : Z; c_month : Z; c_day : Z }.

(* the date of a day count, inverse of days_from_civil *)
Definition civil_from_days (z : Z) : civil :=
  let z' := z + 719468 in
  let era := z' / 146097 in
  let doe := z' mod 146097 in
  let yoe := (doe - doe / 1460 + doe / 36524 - doe / 146096) / 365 in
  let doy := doe - (365 * yoe + yoe / 4 - yoe / 100) in
  let mp := (5 * doy + 2) / 153 in
  let d := doy - (153 * mp + 2) / 5 + 1 in
  let m := if mp <? 10 then mp + 3 else mp - 9 in
  mkCivil (if m <=? 2 then yoe + era * 400 + 1 else yoe + era * 400) m d.

Definition is_leapyear (y : Z) : bool :=
  ((y mod 4 =? 0) && negb (y mod 100 =? 0)) || (y mod 400 =? 0).

Definition get_days_in_month (y m : Z) : Z :=
  match m with
  | 2 => if is_leapyear y then 29 else 28
  | 4 | 6 | 9 | 11 => 30
  | _ => 31
  end.

(* dayofweek(y, m, d): 0 is Monday *)
Definition dayofweek (y m d : Z) : Z := (days_from_civil y m d + 3) mod 7.

(* fields of a timestamp *)
Definition ts_days (t : Z) : Z := t / one_day.
Definition ts_tod (t : Z) : Z := t mod one_day.
Definition ts_year (t : Z) : Z := c_year (civil_from_days (ts_days t)).
Definition ts_month (t : Z) : Z := c_month (civil_from_days (ts_days t)).
Definition ts_day (t : Z) : Z := c_day (civil_from_days (ts_days t)).
Definition ts_weekday (t : Z) : Z := (ts_days t + 3) mod 7.

(* Timestamp.time(), of microsecond resolution *)
Definition ts_time (t : Z) : Z := ts_tod t - t mod one_us.

(* stamp.replace(year=y, month=m, day=d): the time of day is kept *)
Definition replace_date (stamp y m d : Z) : Z := days_from_civil y m d * one_day + ts_tod stamp.

(* datetime(stamp.year, stamp.month, stamp.day) + tod *)
Definition at_time (stamp tod : Z) : Z := ts_days stamp * one_day + tod.

Definition get_firstbday (y m : Z) : Z :=
  let wkday := dayofweek y m 1 in
  if wkday =? 5 then 3 else if wkday =? 6 then 2 else 1.

Definition get_lastbday (y m : Z) : Z :=
  let wkday := dayofweek y m 1 in
  let days_in_month := get_days_in_month y m in
  days_in_month - Z.max (((wkday + days_in_month - 1) mod 7) - 4) 0.

(* ------------------------------------------------------------------ *)
(** * pandas date offsets *)

(* the day_opt of the month-anchored offsets *)
Inductive day_opt : Type := DayStart | DayEnd | BusinessStart | BusinessEnd.

Definition get_day_of_month (y m : Z) (o : day_opt) : Z :=
  match o with
  | DayStart => 1
  | DayEnd => get_days_in_month y m
  | BusinessStart => get_firstbday y m
  | BusinessEnd => get_lastbday y m
  end.

(* shift_month(stamp, months, day_opt) *)
Definition shift_month (stamp months : Z) (o : day_opt) : Z :=
  let dy := (ts_month stamp + months) / 12 in
  let month := (ts_month stamp + months) mod 12 in
  let '(dy, month) := if month =? 0 then (dy - 1, 12) else (dy, month) in
  let year := ts_year stamp + dy in
  replace_date stamp year month (get_day_of_month year month o).

(* roll_qtrday(other, n, month, day_opt, modby) *)
Definition roll_qtrday (other n month : Z) (o : day_opt) (modby : Z) : Z :=
  let months_since :=
    if modby =? 12 then ts_month other - month
    else ts_month other mod modby - month mod modby in
  let dom := get_day_of_month (ts_year other) (ts_month other) o in
  if n >? 0 then
    if (months_since <? 0) || ((months_since =? 0) && (ts_day other <? dom))
    then n - 1 else n
  else
    if (months_since >? 0) || ((months_since =? 0) && (dom <? ts_day other))
    then n + 1 else n.

(* roll_convention(other, n, compare) *)
Definition roll_convention (other n compare : Z) : Z :=
  if (n >? 0) && (other <? compare) then n - 1
  else if (n <=? 0) && (compare <? other) then n + 1
  else n.

(* The offsets an inferred alias names, as to_offset builds them:
   Tick: Day, Hour, Minute, Second, Milli, Micro, Nano, by their length in ns;
   YearOffset: YearBegin (YS), BYearBegin (BYS), YearEnd (YE), BYearEnd (BYE);
   QuarterOffset: QuarterBegin (QS), BQuarterBegin (BQS), QuarterEnd (QE),
   BQuarterEnd (BQE); MonthOffset: MonthBegin (MS), BusinessMonthBegin (BMS),
   MonthEnd (ME), BusinessMonthEnd (BME); Week (W-<day>);
   WeekOfMonth (WOM-<k><day>); BusinessDay (B); BusinessHour (bh, 09:00-17:00). *)
Inductive offset : Type :=
| Tick (nanos : Z)
| YearOffset (n month : Z) (o : day_opt)
| QuarterOffset (n startingMonth : Z) (o : day_opt)
| MonthOffset (n : Z) (o : day_opt)
| Week (n weekday : Z)
| WeekOfMonth (n week weekday : Z)
| BusinessDay (n : Z)
| BusinessHour (n : Z).

Definition offset_n (off : offset) : Z :=
  match off with
  | Tick _ => 1
  | YearOffset n _ _ | QuarterOffset n _ _ | MonthOffset n _ | Week n _
  | WeekOfMonth n _ _ | BusinessDay n | BusinessHour n => n
  end.

(* type(self)(n, **self.kwds) *)
Definition with_n (off : offset) (k : Z) : offset :=
  match off with
  | Tick s => Tick s
  | YearOffset _ m o => YearOffset k m o
  | QuarterOffset _ m o => QuarterOffset k m o
  | MonthOffset _ o => MonthOffset k o
  | Week _ wd => Week k wd
  | WeekOfMonth _ w wd => WeekOfMonth k w wd
  | BusinessDay _ => BusinessDay k
  | BusinessHour _ => BusinessHour k
  end.

(* BusinessDay._adjust_ndays *)
Definition bday_adjust_ndays (n wday weeks : Z) : Z :=
  let n := if (n <=? 0) && (4 <? wday) then n + 1 else n in
  let n := n - 5 * weeks in
  if (n =? 0) && (4 <? wday) then 4 - wday
  else if 4 <? wday then (7 - wday) + (n - 1)
  else if wday + n <=? 4 then n
  else n + 2.

(* BusinessDay(n)._apply *)
Definition bday_apply (n t : Z) : Z :=
  let wday := ts_weekday t in
  let weeks := n / 5 in
  let days := bday_adjust_ndays n wday weeks in
  t + (7 * weeks + days) * one_day.

(* BusinessHour with start 09:00 and end 17:00 *)
Definition bh_start : Z := 9 * one_hour.
Definition bh_end : Z := 17 * one_hour.
Definition bh_hours : Z := 8 * one_hour.

(* BusinessHour(n)._next_opening_time(other, sign) *)
Definition bh_next_opening_time (n other sign : Z) : Z :=
  let is_same_sign := if n =? 0 then sign >? 0 else n * sign >=? 0 in
  let nb := if n >=? 0 then 1 else -1 in
  let other :=
    if negb (ts_weekday other <? 5) then bday_apply (sign * nb) other
    else if is_same_sign then
      (if bh_start <? ts_time other then bday_apply (sign * nb) other else other)
    else
      (if ts_time other <? bh_start then bday_apply (sign * nb) other else other) in
  at_time other bh_start.

Definition bh_prev_opening_time (n other : Z) : Z := bh_next_opening_time n other (-1).

(* _get_closing_time of an opening time *)
Definition bh_closing_time (dt : Z) : Z := dt + bh_hours.

(* BusinessHour(n)._is_on_offset *)
Definition bh_is_on_offset (n dt : Z) : bool :=
  let op := if n >=? 0 then bh_prev_opening_time n dt else bh_next_opening_time n dt 1 in
  dt - op <=? bh_hours.

(* the "remaining business hours" loops of BusinessHour._apply; each
   round either finishes or moves to the next business interval, and with
   |r| < 8 hours two rounds suffice *)
Fixpoint bh_loop_fwd (fuel : nat) (n other remain : Z) : Z :=
  match fuel with
  | O => other
  | S f =>
      if remain =? 0 then other else
      let bhour := bh_closing_time (bh_prev_opening_time n other) - other in
      if remain <? bhour then other + remain
      else bh_loop_fwd f n (bh_next_opening_time n (other + bhour) 1) (remain - bhour)
  end.

Fixpoint bh_loop_bwd (fuel : nat) (n nanosecond other remain : Z) : Z :=
  match fuel with
  | O => other
  | S f =>
      if remain =? 0 then other else
      let bhour := bh_next_opening_time n other 1 - other in
      if (bhour <? remain) || ((remain =? bhour) && negb (nanosecond =? 0))
      then other + remain
      else bh_loop_bwd f n nanosecond
             (bh_closing_time (bh_next_opening_time n (other + bhour - one_second) 1))
             (remain - bhour)
  end.

(* BusinessHour(n)._apply, with apply_wraps putting the nanoseconds back *)
Definition bh_apply (n t : Z) : Z :=
  let nanosecond := t mod one_us in
  let other := t - nanosecond in
  let other :=
    if n >=? 0 then
      if (ts_time other =? bh_end) || negb (bh_is_on_offset n other)
      then bh_next_opening_time n other 1 else other
    else
      let other := if ts_time other =? bh_start then other - one_second else other in
      if negb (bh_is_on_offset n other)
      then bh_closing_time (bh_next_opening_time n other 1) else other in
  let bd := Z.abs (n * 60) / (bh_hours / one_minute) in
  let r := Z.abs (n * 60) mod (bh_hours / one_minute) in
  let '(bd, r) := if n <? 0 then (- bd, - r) else (bd, r) in
  let other :=
    if bd =? 0 then other
    else if negb (ts_weekday other <? 5) then
      let prev_open := bh_prev_opening_time n other in
      bday_apply bd prev_open + (other - prev_open)
    else bday_apply bd other in
  let other :=
    if n >=? 0 then bh_loop_fwd 8 n other (r * one_minute)
    else bh_loop_bwd 8 n nanosecond other (r * one_minute) in
  other + nanosecond.

(* WeekOfMonth._get_offset_day *)
Definition wom_offset_day (week weekday t : Z) : Z :=
  let wday := dayofweek (ts_year t) (ts_month t) 1 in
  1 + (weekday - wday) mod 7 + week * 7.

(* offset.is_on_offset(dt) *)
Definition is_on_offset (off : offset) (t : Z) : bool :=
  match off with
  | Tick _ => true
  | YearOffset _ month o =>
      (ts_month t =? month) && (ts_day t =? get_day_of_month (ts_year t) month o)
  | QuarterOffset _ sm o =>
      ((ts_month t - sm) mod 3 =? 0) &&
      (ts_day t =? get_day_of_month (ts_year t) (ts_month t) o)
  | MonthOffset _ o => ts_day t =? get_day_of_month (ts_year t) (ts_month t) o
  | Week _ wd => ts_weekday t =? wd
  | WeekOfMonth _ week wd => ts_day t =? wom_offset_day week wd t
  | BusinessDay _ => ts_weekday t <? 5
  | BusinessHour n => bh_is_on_offset n t
  end.

(* offset._apply(t), i.e. t + offset *)
Definition apply_offset (off : offset) (t : Z) : Z :=
  match off with
  | Tick s => t + s
  | YearOffset n month o =>
      let years := roll_qtrday t n month o 12 in
      let months := years * 12 + (month - ts_month t) in
      shift_month t months o
  | QuarterOffset n sm o =>
      let months_since := ts_month t mod 3 - sm mod 3 in
      let qtrs := roll_qtrday t n sm o 3 in
      shift_month t (qtrs * 3 - months_since) o
  | MonthOffset n o =>
      let compare_day := get_day_of_month (ts_year t) (ts_month t) o in
      shift_month t (roll_convention (ts_day t) n compare_day) o
  | Week n wd =>
      let otherDay := ts_weekday t in
      if otherDay =? wd then t + n * 7 * one_day
      else
        let t' := t + ((wd - otherDay) mod 7) * one_day in
        let k := if n >? 0 then n - 1 else n in
        t' + k * 7 * one_day
  | WeekOfMonth n week wd =>
      let compare_day := wom_offset_day week wd t in
      let months := roll_convention (ts_day t) n compare_day in
      let shifted := shift_month t months DayStart in
      let to_day := wom_offset_day week wd shifted in
      shifted + (to_day - ts_day shifted) * one_day
  | BusinessDay n => bday_apply n t
  | BusinessHour n => bh_apply n t
  end.

(* offset.rollforward(dt) and offset.rollback(dt) *)
Definition rollforward (off : offset) (t : Z) : Z :=
  if is_on_offset off t then t else
  match off with
  | BusinessHour n =>
      if n >=? 0 then bh_next_opening_time n t 1 else bh_prev_opening_time n t
  | _ => apply_offset (with_n off 1) t
  end.

Definition rollback (off : offset) (t : Z) : Z :=
  if is_on_offset off t then t else
  match off with
  | BusinessHour n =>
      bh_closing_time (if n >=? 0 then bh_prev_opening_time n t else bh_next_opening_time n t 1)
  | _ => apply_offset (with_n off (-1)) t
  end.

(* ------------------------------------------------------------------ *)
(** * pandas.infer_freq on a datetime index *)

(* np.diff *)
Fixpoint np_diff (ts : list Z) : list Z :=
  match ts with
  | a :: ((b :: _) as t) => (b - a) :: np_diff t
  | _ => []
  end.

Fixpoint nondecreasing (ts : list Z) : bool :=
  match ts with
  | a :: ((b :: _) as t) => (a <=? b) && nondecreasing t
  | _ => true
  end.

Fixpoint nonincreasing (ts : list Z) : bool :=
  match ts with
  | a :: ((b :: _) as t) => (b <=? a) && nonincreasing t
  | _ => true
  end.

Fixpoint nodupb (ts : list Z) : bool :=
  match ts with
  | [] => true
  | a :: t => negb (existsb (Z.eqb a) t) && nodupb t
  end.

Fixpoint insert_sorted (x : Z) (l : list Z) : list Z :=
  match l with
  | [] => [x]
  | y :: t => if x <=? y then x :: l else y :: insert_sorted x t
  end.

Fixpoint sort_Z (l : list Z) : list Z :=
  match l with [] => [] | x :: t => insert_sorted x (sort_Z t) end.

Fixpoint dedup (l : list Z) : list Z :=
  match l with
  | [] => []
  | x :: t => if existsb (Z.eqb x) t then dedup t else x :: dedup t
  end.

(* unique_deltas: the sorted distinct consecutive differences *)
Definition unique_deltas (ts : list Z) : list Z := sort_Z (dedup (np_diff ts)).

(* algos.is_monotonic(timelike=True): a NaT makes an index non-monotonic *)
Definition is_monotonic_increasing (ts : list Z) : bool :=
  negb (existsb is_NaT ts) && nondecreasing ts.

Definition is_monotonic_decreasing (ts : list Z) : bool :=
  negb (existsb is_NaT ts) && nonincreasing ts.

(* _maybe_add_count *)
Definition maybe_add_count (base : string) (count : Z) : string :=
  if count =? 1 then base else py_str_int count ++ base.

Definition month_alias (m : Z) : string :=
  match m with
  | 1 => "JAN" | 2 => "FEB" | 3 => "MAR" | 4 => "APR" | 5 => "MAY" | 6 => "JUN"
  | 7 => "JUL" | 8 => "AUG" | 9 => "SEP" | 10 => "OCT" | 11 => "NOV" | _ => "DEC"
  end.

Definition weekday_alias (d : Z) : string :=
  match d with
  | 0 => "MON" | 1 => "TUE" | 2 => "WED" | 3 => "THU"
  | 4 => "FRI" | 5 => "SAT" | _ => "SUN"
  end.

Record freq : Type := mkFreq {
  freq_name : string;      (* the alias infer_freq returns *)
  freq_offset : offset     (* to_offset(freq_name) *)
}.

(* month_position_check: "ce", "be", "cs", "bs" or None *)
Inductive month_position : Type := PosCE | PosBE | PosCS | PosBS.

Definition month_position_check (ts : list Z) : option month_position :=
  let dim t := get_days_in_month (ts_year t) (ts_month t) in
  let calendar_start := forallb (fun t => ts_day t =? 1) ts in
  let business_start :=
    forallb (fun t => (ts_day t =? 1) || ((ts_day t <=? 3) && (ts_weekday t =? 0))) ts in
  let calendar_end := forallb (fun t => ts_day t =? dim t) ts in
  let business_end :=
    forallb (fun t => (ts_day t =? dim t) || ((dim t - ts_day t <? 3) && (ts_weekday t =? 4))) ts in
  if calendar_end then Some PosCE
  else if business_end then Some PosBE
  else if calendar_start then Some PosCS
  else if business_start then Some PosBS
  else None.

Definition ydiffs (ts : list Z) : list Z := unique_deltas (map ts_year ts).
Definition mdiffs (ts : list Z) : list Z :=
  unique_deltas (map (fun t => ts_year t * 12 + ts_month t) ts).

Definition pos_day_opt (p : month_position) : day_opt :=
  match p with PosCS => DayStart | PosBS => BusinessStart | PosCE => DayEnd | PosBE => BusinessEnd end.

Definition pos_prefix (p : month_position) : string :=
  match p with PosCS => EmptyString | PosBS => "B" | PosCE => EmptyString | PosBE => "B" end.

Definition pos_suffix (p : month_position) : string :=
  match p with PosCS | PosBS => "S" | PosCE | PosBE => "E" end.

(* _get_annual_rule, _get_quarterly_rule, _get_monthly_rule: the position check *)
Definition get_annual_rule (ts : list Z) : option month_position :=
  if (1 <? length (ydiffs ts))%nat then None
  else if (1 <? length (dedup (map ts_month ts)))%nat then None
  else month_position_check ts.

Definition get_quarterly_rule (ts : list Z) : option month_position :=
  if (1 <? length (mdiffs ts))%nat then None
  else if negb (hd 0 (mdiffs ts) mod 3 =? 0) then None
  else month_position_check ts.

Definition get_monthly_rule (ts : list Z) : option month_position :=
  if (1 <? length (mdiffs ts))%nat then None
  else month_position_check ts.

(* {0: 12, 2: 11, 1: 10}[rep_stamp.month % 3] *)
Definition quarter_month (r : Z) : Z :=
  if r =? 0 then 12 else if r =? 2 then 11 else 10.

(* _get_daily_rule *)
Definition get_daily_rule (rep_stamp delta : Z) : freq :=
  let days := delta / one_day in
  if days mod 7 =? 0 then
    let wd := ts_weekday rep_stamp in
    mkFreq (maybe_add_count ("W-" ++ weekday_alias wd) (days / 7)) (Week (days / 7) wd)
  else mkFreq (maybe_add_count "D" days) (Tick (days * one_day)).

(* the weekday check of _is_business_daily, element after element *)
Fixpoint business_weekdays (wd : Z) (shifts : list Z) : bool :=
  match shifts with
  | [] => true
  | s :: r =>
      let wd' := (wd + s) mod 7 in
      (((wd' =? 0) && (s =? 3)) || ((0 <? wd') && (wd' <=? 4) && (s =? 1)))
      && business_weekdays wd' r
  end.

(* _is_business_daily *)
Definition is_business_daily (ts ds : list Z) : bool :=
  match ds with
  | [d1; d3] =>
      (d1 =? one_day) && (d3 =? 3 * one_day) &&
      business_weekdays (ts_weekday (hd 0 ts)) (map (fun d => d / one_day) (np_diff ts))
  | _ => false
  end.

(* _get_wom_rule *)
Definition get_wom_rule (ts : list Z) : option freq :=
  let weekdays := dedup (map ts_weekday ts) in
  if (1 <? length weekdays)%nat then None
  else
    match filter (fun w => w <? 4) (dedup (map (fun t => (ts_day t - 1) / 7) ts)) with
    | [w] =>
        let wd := hd 0 weekdays in
        Some (mkFreq ("WOM-" ++ py_str_int (w + 1) ++ weekday_alias wd) (WeekOfMonth 1 w wd))
    | _ => None
    end.

(* _infer_daily_rule *)
Definition infer_daily_rule (ts ds : list Z) : option freq :=
  let rep := hd 0 ts in
  match get_annual_rule ts with
  | Some p =>
      let nyears := hd 0 (ydiffs ts) in
      let alias := pos_prefix p ++ "Y" ++ pos_suffix p ++ "-" ++ month_alias (ts_month rep) in
      Some (mkFreq (maybe_add_count alias nyears) (YearOffset nyears (ts_month rep) (pos_day_opt p)))
  | None =>
  match get_quarterly_rule ts with
  | Some p =>
      let nquarters := hd 0 (mdiffs ts) / 3 in
      let month := quarter_month (ts_month rep mod 3) in
      let alias := pos_prefix p ++ "Q" ++ pos_suffix p ++ "-" ++ month_alias month in
      Some (mkFreq (maybe_add_count alias nquarters) (QuarterOffset nquarters month (pos_day_opt p)))
  | None =>
  match get_monthly_rule ts with
  | Some p =>
      let nmonths := hd 0 (mdiffs ts) in
      Some (mkFreq (maybe_add_count (pos_prefix p ++ "M" ++ pos_suffix p) nmonths)
                   (MonthOffset nmonths (pos_day_opt p)))
  | None =>
  if (length ds =? 1)%nat then Some (get_daily_rule rep (hd 0 ds))
  else if is_business_daily ts ds then Some (mkFreq "B" (BusinessDay 1))
  else get_wom_rule ts
  end end end.

(* the intraday branch of get_freq, for a unique delta *)
Definition get_intraday_rule (delta : Z) : freq :=
  if delta mod one_hour =? 0 then mkFreq (maybe_add_count "h" (delta / one_hour)) (Tick delta)
  else if delta mod one_minute =? 0 then mkFreq (maybe_add_count "min" (delta / one_minute)) (Tick delta)
  else if delta mod one_second =? 0 then mkFreq (maybe_add_count "s" (delta / one_second)) (Tick delta)
  else if delta mod one_ms =? 0 then mkFreq (maybe_add_count "ms" (delta / one_ms)) (Tick delta)
  else if delta mod one_us =? 0 then mkFreq (maybe_add_count "us" (delta / one_us)) (Tick delta)
  else mkFreq (maybe_add_count "ns" delta) (Tick delta).

(* hour_deltas in ([1, 17], [1, 65], [1, 17, 65]) *)
Definition business_hour_deltas (ds : list Z) : bool :=
  match ds with
  | [a; b] => (a =? one_hour) && ((b =? 17 * one_hour) || (b =? 65 * one_hour))
  | [a; b; c] => (a =? one_hour) && (b =? 17 * one_hour) && (c =? 65 * one_hour)
  | _ => false
  end.

(* pd.infer_freq(index) = _FrequencyInferer(index).get_freq() *)
Definition infer_freq (ts : list Z) : result (option freq) :=
  if (length ts <? 3)%nat
  then Err (ValueError "Need at least 3 dates to infer frequency")
  else if negb ((is_monotonic_increasing ts || is_monotonic_decreasing ts) && nodupb ts)
  then Ok None
  else
    let ds := unique_deltas ts in
    let delta := hd 0 ds in
    if negb (delta =? 0) && (delta mod one_day =? 0) then Ok (infer_daily_rule ts ds)
    else if business_hour_deltas ds then Ok (Some (mkFreq "bh" (BusinessHour 1)))
    else if negb (length ds =? 1)%nat then Ok None
    else Ok (Some (get_intraday_rule delta)).

(* ------------------------------------------------------------------ *)
(** * pandas.date_range(start, end, freq) and Index.difference *)

Fixpoint progression (b s : Z) (n : nat) : list Z :=
  match n with
  | O => []
  | S n' => b :: progression (b + s) s n'
  end.

(* np.arange(b, e, stride) *)
Definition arange (b e stride : Z) : list Z :=
  if stride =? 0 then []
  else progression b stride (Z.to_nat (- ((b - e) / stride))).

(* generate_regular_range(start, end, None, freq), for a Tick of stride ns *)
Definition generate_regular_range (start end_ stride : Z) : list Z :=
  let e := start + (end_ - start) / stride * stride + stride / 2 + 1 in
  arange start e stride.

(* the while loop of offsets._generate_range, from cur up (n >= 0) or down
   (n < 0) to end_ *)
Inductive gen_state : Type :=
| GRun (cur : Z) (acc : list Z)
| GDone (acc : list Z)
| GFail (e : pyerr).

Definition gen_step (off : offset) (end_ : Z) (st : gen_state) : gen_state :=
  match st with
  | GRun cur acc =>
      if offset_n off >=? 0 then
        if cur <=? end_ then
          if cur =? end_ then GDone (cur :: acc)
          else
            let next_date := apply_offset off cur in
            if next_date <=? cur then GFail (ValueError "Offset did not increment date")
            else GRun next_date (cur :: acc)
        else GDone acc
      else
        if end_ <=? cur then
          if cur =? end_ then GDone (cur :: acc)
          else
            let next_date := apply_offset off cur in
            if cur <=? next_date then GFail (ValueError "Offset did not decrement date")
            else GRun next_date (cur :: acc)
        else GDone acc
  | st => st
  end.

(* 2^k rounds of gen_step *)
Fixpoint gen_loop (k : nat) (off : offset) (end_ : Z) (st : gen_state) : gen_state :=
  match k with
  | O => gen_step off end_ st
  | S k' =>
      match gen_loop k' off end_ st with
      | GRun cur acc => gen_loop k' off end_ (GRun cur acc)
      | st' => st'
      end
  end.

(* offsets._generate_range(start, end, None, offset); the dates of a run
   strictly increase (or decrease), so on int64 timestamps the loop ends
   within 2^64 rounds *)
Definition generate_range (start end_ : Z) (off : offset) : result (list Z) :=
  let on_start := is_on_offset off start in
  let start' := if on_start then start else rollforward off start in
  let end' := if on_start && negb (is_on_offset off end_) then rollback off end_ else end_ in
  let end'' :=
    if (end' <? start') && (0 <=? offset_n off)
    then apply_offset (with_n off (- offset_n off)) start' else end' in
  match gen_loop 64 off end'' (GRun start' []) with
  | GDone acc => Ok (rev acc)
  | GFail e => Err e
  | GRun _ _ => Err (ValueError "Offset did not reach end")
  end.

(* pd.date_range(start, end, freq): freq None falls back to 'D' *)
Definition date_range (start end_ : Z) (f : option offset) : result (list Z) :=
  if is_NaT start || is_NaT end_
  then Err (ValueError "Neither `start` nor `end` can be NaT")
  else
    match f with
    | None => Ok (generate_regular_range start end_ one_day)
    | Some (Tick stride) => Ok (generate_regular_range start end_ stride)
    | Some off => generate_range start end_ off
    end.

(* Index.difference(other): sorted unique values of self not in other *)
Definition index_difference (a b : list Z) : list Z :=
  sort_Z (dedup (filter (fun x => negb (existsb (Z.eqb x) b)) a)).

Definition list_min (l : list Z) : Z :=
  match l with [] => 0 | x :: t => fold_left Z.min t x end.

Definition list_max (l : list Z) : Z :=
  match l with [] => 0 | x :: t => fold_left Z.max t x end.

(* DatetimeIndex.min() and .max(): NaT is skipped; NaT if nothing is left *)
Definition index_min (ts : list Z) : Z :=
  match filter (fun t => negb (is_NaT t)) ts with [] => NaT | vs => list_min vs end.

Definition index_max (ts : list Z) : Z :=
  match filter (fun t => negb (is_NaT t)) ts with [] => NaT | vs => list_max vs end.

(* ------------------------------------------------------------------ *)
(** * UnivariateEDA.describe_time_index *)

Record time_index_description : Type := mkTID {
  inferred_frequency : option string;
  start_time : Z;
  end_time : Z;
  n_missing_timestamps : nat;
  missing_timestamps : list Z
}.

Definition describe_time_index (s : series) : result time_index_description :=
  let index := labels s in
  if negb (is_datetime64_any_dtype (dtype s))
  then Err (ValueError "DataFrame index must be a datetime type.")
  else
    f <- infer_freq index ;;
    let start_time := index_min index in
    let end_time := index_max index in
    full_time_index <- date_range start_time end_time (option_map freq_offset f) ;;
    let missing := index_difference full_time_index index in
    Ok (mkTID (option_map freq_name f) start_time end_time
              (length missing) missing).

(* ------------------------------------------------------------------ *)
(** * Python dicts returned by the engine *)

Inductive pyval : Type :=
| PFloat (v : fval)
| PInt (z : Z)
| PBool (b : bool)
| PStr (s : string)
| PNone.

Definition pydict := list (string * pyval).

Fixpoint dict_get (k : string) (d : pydict) : option pyval :=
  match d with
  | [] => None
  | (k', v) :: t => if String.eqb k k' then Some v else dict_get k t
  end.

(* d[k] = v: update in place, or append a new key *)
Fixpoint dict_set (k : string) (v : pyval) (d : pydict) : pydict :=
  match d with
  | [] => [(k, v)]
  | (k', v') :: t => if String.eqb k k' then (k, v) :: t else (k', v') :: dict_set k v t
  end.

(* the "<" of two Python values, as far as floats and ints go *)
Definition py_lt (a b : pyval) : result bool :=
  match a, b with
  | PFloat x, PFloat y => Ok (flt x y)
  | PInt x, PInt y => Ok (x <? y)
  | PInt x, PFloat y => Ok (flt (Fin (inject_Z x)) y)
  | PFloat x, PInt y => Ok (flt x (Fin (inject_Z y)))
  | _, _ => Err (TypeError "'<' not supported")
  end.

(* ------------------------------------------------------------------ *)
(** * statsmodels.tsa.stattools.acf (adjusted=False, demean, no qstat) *)

Definition fsum (l : list fval) : fval := fold_left fadd l (Fin 0).

Definition fval_of_nat (n : nat) : fval := Fin (inject_Z (Z.of_nat n)).

(* acovf: biased autocovariances at lags 0 .. n-1 *)
Definition acovf (xs : list fval) : list fval :=
  let n := List.length xs in
  let mu := fdiv (fsum xs) (fval_of_nat n) in
  let d := map (fun x => fsub x mu) xs in
  map (fun k => fdiv (fsum (map (fun p => fmul (fst p) (snd p))
                                 (combine (firstn (n - k) d) (skipn k d))))
                     (fval_of_nat n))
      (seq 0 n).

(* Python slice a[:k] *)
Definition py_slice_upto {A} (l : list A) (k : Z) : list A :=
  if 0 <=? k then firstn (Z.to_nat k) l
  else firstn (Z.to_nat (Z.of_nat (List.length l) + k)) l.

(* acf = avf[: nlags + 1] / avf[0] *)
Definition acf (xs : list fval) (nlags : Z) : result (list fval) :=
  match xs with
  | [] => Err (LibError "acovf of an empty array")
  | _ =>
      let avf := acovf xs in
      Ok (map (fun v => fdiv v (hd NaN avf)) (py_slice_upto avf (nlags + 1)))
  end.

Definition lag_key (i : nat) : string := "lag_" ++ py_str_int (Z.of_nat i).

(* {f'lag_{i}': values[i] for i in range(len(values))} *)
Definition lag_dict (v : list fval) : pydict :=
  map (fun i => (lag_key i, PFloat (nth i v NaN))) (seq 0 (List.length v)).

(* UnivariateEDA.describe_acf *)
Definition describe_acf (s : series) (nlags : Z) : result pydict :=
  v <- acf (values s) nlags ;;
  Ok (lag_dict v).

(* the lag guard of statsmodels' pacf (0.14): nlags = max(nlags, 1), and
   ValueError when nlags > nobs // 2 *)
Definition pacf_guard (n : nat) (nlags : Z) : result Z :=
  let nl := Z.max nlags 1 in
  if Z.of_nat n / 2 <? nl then Err (PacfLagError nl (Z.of_nat n / 2)) else Ok nl.

(* ------------------------------------------------------------------ *)
(** * Plotly figures, as far as the engine fills them *)

Inductive trace : Type :=
| Scatter (x : list Z) (y : list fval) (name : option string)
| BoxTrace (y : list fval) (name : option string)
| HistogramTrace (horizontal : bool) (v : list fval)
| BarTrace (x : list nat) (y : list fval).

Record figure : Type := mkFig {
  fig_traces : list trace;
  fig_title : option string;
  fig_hlines : list R
}.

(* prefix + ts.name + suffix: TypeError when the name is None *)
Definition name_concat (prefix : string) (name : option string) (suffix : string)
  : result string :=
  match name with
  | Some n => Ok (prefix ++ n ++ suffix)
  | None => Err (TypeError "unsupported operand type(s) for +: 'str' and 'NoneType'")
  end.

(* f'{ts.name}' *)
Definition fstr_name (name : option string) : string :=
  match name with Some n => n | None => "None" end.

(* critical_value = 1.96 / (len(ts_to_use) ** 0.5) *)
Definition critical_band (n : nat) : result R :=
  if (n =? 0)%nat then Err ZeroDivisionError
  else Ok (Rdiv (IZR 196 / IZR 100) (sqrt (INR n))).

(* the significance half-width 1.96 / sqrt(n), as the spec states it *)
Definition spec_band (n : nat) : R := Rdiv (IZR 196 / IZR 100) (sqrt (INR n)).

(* ------------------------------------------------------------------ *)
(** * UnivaritateEDAReport._self_correlation_panel: cadence policy *)

(* inferred_freq = self.index_description.get('inferred_frequency', 'h');
   the key is always present, so the default is never used *)
Definition self_correlation_params (inferred_freq : option string)
  : result (Z * Z * string) :=
  match inferred_freq with
  | Some f =>
      if String.eqb f "M" then Ok (12, 60, "h")
      else if String.eqb f "h" then Ok (24, 168, "d")
      else if String.eqb f "d" then Ok (30, 365, "w")
      else Err (UnboundLocalError "lag1")
  | None => Err (UnboundLocalError "lag1")
  end.

(* UnivaritateEDAReport.__init__ stores describe_time_index(); the panel
   then reads its inferred frequency *)
Definition report_correlation_params (s : series) : result (Z * Z * string) :=
  d <- describe_time_index s ;;
  self_correlation_params (inferred_frequency d).

(* ------------------------------------------------------------------ *)
(** * The UnivariateEDA engine: methods as state transitions on self.ts *)

(* statsmodels' adfuller with autolag='AIC': (adf, pvalue, usedlag, nobs,
   critvalues, icbest); critvalues is {'1%': ., '5%': ., '10%': .} *)
Record adf_result : Type := mkADF {
  adf_stat : fval;
  adf_pvalue : fval;
  adf_usedlag : Z;
  adf_nobs : Z;
  adf_critvalues : list (string * fval);
  adf_icbest : fval
}.

Section Engine.

(* library functions the engine calls *)
Variable adfuller : list fval -> result adf_result.
Variable pacf_yw : list fval -> Z -> result (list fval).
(* ts.resample(rule).mean().dropna() *)
Variable resample_mean : string -> series -> result series.
Variables pd_min pd_max pd_mean pd_std pd_skew pd_kurtosis : list fval -> fval.
Variable pd_quantile : Q -> list fval -> fval.
Variables rolling_mean rolling_std : Z -> series -> series.

(* statsmodels.tsa.stattools.pacf, method ywadjusted *)
Definition pacf (xs : list fval) (nlags : Z) : result (list fval) :=
  nl <- pacf_guard (List.length xs) nlags ;;
  pacf_yw xs nl.

(* An engine method reads self.ts and returns its result together with
   the value of self.ts after the call. *)
Definition method (A : Type) := series -> result A * series.

Definition pure_method {A} (f : series -> result A) : method A :=
  fun s => (f s, s).

Definition plot_time_series (differenced_ : bool) : method figure :=
  pure_method (fun s =>
    let ts_to_plot := if differenced_ then differenced s else s in
    title <- name_concat EmptyString (sname ts_to_plot) " time series" ;;
    Ok (mkFig [Scatter (labels ts_to_plot) (values ts_to_plot) (sname ts_to_plot)]
              (Some title) [])).

Definition describe_distribution : method pydict :=
  pure_method (fun s =>
    let v := values s in
    Ok [("min", PFloat (pd_min v));
        ("25th_percentile", PFloat (pd_quantile (1 # 4) v));
        ("50th_percentile", PFloat (pd_quantile (1 # 2) v));
        ("75th_percentile", PFloat (pd_quantile (3 # 4) v));
        ("max", PFloat (pd_max v));
        ("range", PFloat (fsub (pd_max v) (pd_min v)));
        ("mean", PFloat (pd_mean v));
        ("std_dev", PFloat (pd_std v));
        ("skewness", PFloat (pd_skew v));
        ("kurtosis", PFloat (pd_kurtosis v))]).

Definition make_box_plot (differenced_ : bool) : method figure :=
  pure_method (fun s =>
    let ts_to_plot := if differenced_ then differenced s else s in
    title <- name_concat "Box Plot of " (sname ts_to_plot) EmptyString ;;
    Ok (mkFig [BoxTrace (values ts_to_plot) (sname ts_to_plot)] (Some title) [])).

Definition plot_rolling_statistics (window : Z) : method figure :=
  pure_method (fun s =>
    let rm := rolling_mean window s in
    let rs := rolling_std window s in
    Ok (mkFig [Scatter (labels s) (values s) (sname s);
               Scatter (labels rm) (values rm) (Some "Rolling Mean");
               Scatter (labels rs) (values rs) (Some "Rolling Std Dev")]
              (Some (fstr_name (sname s) ++ " with Rolling Statistics")) [])).

(* the only method that assigns self.ts *)
Definition plot_distribution_histogram (differenced_ : bool) (orientation : string)
  : method figure :=
  fun s =>
    let ts_to_plot := if differenced_ then differenced s else s in
    let s' := if differenced_ then ts_to_plot else s in
    let fig :=
      if String.eqb orientation "h" then
        title <- name_concat "Distribution of " (sname ts_to_plot) EmptyString ;;
        Ok (mkFig [HistogramTrace true (values ts_to_plot)] (Some title) [])
      else if String.eqb orientation "v" then
        title <- name_concat "Distribution of " (sname ts_to_plot) EmptyString ;;
        Ok (mkFig [HistogramTrace false (values ts_to_plot)] (Some title) [])
      else Ok (mkFig [] None []) in
    (fig, s').

Definition critical_value_entries (cv : list (string * fval)) : pydict :=
  map (fun kv => ("critical_value_" ++ fst kv, PFloat (snd kv))) cv.

Definition describe_stationarity_pure (s : series) : result pydict :=
  r <- adfuller (values s) ;;
  let adf_dict :=
    [("adf_statistic", PFloat (adf_stat r));
     ("p_value", PFloat (adf_pvalue r));
     ("used_lag", PInt (adf_usedlag r));
     ("n_obs", PInt (adf_nobs r));
     ("ic_best", PFloat (adf_icbest r))] in
  let adf_dict := fold_left (fun d kv => dict_set (fst kv) (snd kv) d)
                            (critical_value_entries (adf_critvalues r)) adf_dict in
  match dict_get "p_value" adf_dict, dict_get "critical_value_5%" adf_dict with
  | Some p, Some c =>
      b <- py_lt p c ;;
      Ok (dict_set "stationarity" (PBool b) adf_dict)
  | None, _ => Err (KeyError "p_value")
  | _, None => Err (KeyError "critical_value_5%")
  end.

Definition describe_stationarity : method pydict :=
  pure_method describe_stationarity_pure.

Definition describe_acf_m (nlags : Z) : method pydict :=
  pure_method (fun s => describe_acf s nlags).

Definition describe_pacf_pure (s : series) (nlags : Z) : result pydict :=
  v <- pacf (values s) nlags ;;
  Ok (lag_dict v).

Definition describe_pacf (nlags : Z) : method pydict :=
  pure_method (fun s => describe_pacf_pure s nlags).

(* if resample_to: ts.resample(resample_to).mean().dropna() else ts *)
Definition ts_to_use (resample_to : option string) (s : series) : result series :=
  match resample_to with
  | Some r => if String.eqb r EmptyString then Ok s else resample_mean r s
  | None => Ok s
  end.

Definition correlation_figure (title : string) (v : list fval) (cv : R) : figure :=
  mkFig [BarTrace (seq 0 (List.length v)) v] (Some title) [cv; Ropp cv].

Definition plot_acf_pure (nlags : Z) (resample_to : option string) (s : series)
  : result figure :=
  u <- ts_to_use resample_to s ;;
  v <- acf (values u) nlags ;;
  cv <- critical_band (List.length (entries u)) ;;
  Ok (correlation_figure "Autocorrelation Function (ACF)" v cv).

Definition plot_pacf_pure (nlags : Z) (resample_to : option string) (s : series)
  : result figure :=
  u <- ts_to_use resample_to s ;;
  v <- pacf (values u) nlags ;;
  cv <- critical_band (List.length (entries u)) ;;
  Ok (correlation_figure "Partial Autocorrelation Function (PACF)" v cv).

Definition plot_acf (nlags : Z) (resample_to : option string) : method figure :=
  pure_method (plot_acf_pure nlags resample_to).

Definition plot_pacf (nlags : Z) (resample_to : option string) : method figure :=
  pure_method (plot_pacf_pure nlags resample_to).

(* every public method of UnivariateEDA *)
Inductive op : Type :=
| OpDescribeTimeIndex
| OpPlotTimeSeries (differenced_ : bool)
| OpDescribeDistribution
| OpMakeBoxPlot (differenced_ : bool)
| OpPlotRollingStatistics (window : Z)
| OpPlotDistributionHistogram (differenced_ : bool) (orientation : string)
| OpDescribeStationarity
| OpDescribeAcf (nlags : Z)
| OpPlotAcf (nlags : Z) (resample_to : option string)
| OpDescribePacf (nlags : Z)
| OpPlotPacf (nlags : Z) (resample_to : option string).

Inductive output : Type :=
| OutIndex (d : time_index_description)
| OutDict (d : pydict)
| OutFigure (f : figure).

Definition map_result {A B} (f : A -> B) (r : result A) : result B :=
  match r with Ok a => Ok (f a) | Err e => Err e end.

Definition lift {A} (f : A -> output) (m : method A) : method output :=
  fun s => let (r, s') := m s in (map_result f r, s').

Definition run_op (o : op) : method output :=
  match o with
  | OpDescribeTimeIndex => lift OutIndex (pure_method describe_time_index)
  | OpPlotTimeSeries d => lift OutFigure (plot_time_series d)
  | OpDescribeDistribution => lift OutDict describe_distribution
  | OpMakeBoxPlot d => lift OutFigure (make_box_plot d)
  | OpPlotRollingStatistics w => lift OutFigure (plot_rolling_statistics w)
  | OpPlotDistributionHistogram d o => lift OutFigure (plot_distribution_histogram d o)
  | OpDescribeStationarity => lift OutDict describe_stationarity
  | OpDescribeAcf n => lift OutDict (describe_acf_m n)
  | OpPlotAcf n r => lift OutFigure (plot_acf n r)
  | OpDescribePacf n => lift OutDict (describe_pacf n)
  | OpPlotPacf n r => lift OutFigure (plot_pacf n r)
  end.

(* a sequence of calls on one engine *)
Fixpoint run_ops (os : list op) (s : series) : list (result output) * series :=
  match os with
  | [] => ([], s)
  | o :: t =>
      let (r, s1) := run_op o s in
      let (rs, s2) := run_ops t s1 in
      (r :: rs, s2)
  end.

(* whether a call assigns self.ts *)
Definition assigns_held_series (o : op) : bool :=
  match o with
  | OpPlotDistributionHistogram true _ => true
  | _ => false
  end.

End Engine.

(* ------------------------------------------------------------------ *)
(** * UnivaritateEDAReport *)

(* The report holds a reference to the engine (whose self.ts the report's
   calls may reassign) and the index description computed in __init__.
   Trace styling (colours, margins, legend) and the HTML text are not
   modelled: a panel is its list of (row, col, trace) cells. *)
Record report : Type := mkReport {
  eda_ts : series;
  index_description : time_index_description
}.

Definition cell := (nat * nat * trace)%type.

(* the contents generate() renders into univariate_eda_report.html *)
Record report_content : Type := mkContent {
  tsi_table : time_index_description;
  stationarity_table : pydict;
  ts_dist_panel : list cell;
  windowed_panel : figure;
  self_corr_panel : list cell
}.

(* a report method: its result and the report afterwards *)
Definition rmethod (A : Type) := report -> result A * report.

Definition rret {A} (a : A) : rmethod A := fun r => (Ok a, r).

Definition rbind {A B} (m : rmethod A) (k : A -> rmethod B) : rmethod B :=
  fun r => match m r with
           | (Ok a, r') => k a r'
           | (Err e, r') => (Err e, r')
           end.

Notation "x <-- m ;;; k" := (rbind m (fun x => k))
  (at level 61, m at next level, right associativity).

Definition rfail {A} (x : result A) : rmethod A := fun r => (x, r).

(* self.univariate_eda.<method>(...) *)
Definition on_engine {A} (m : method A) : rmethod A :=
  fun r => let (x, s') := m (eda_ts r) in (x, mkReport s' (index_description r)).

Definition get_ts : rmethod series := fun r => (Ok (eda_ts r), r).

(* fig.data[0] *)
Definition first_trace (fig : figure) : result trace :=
  match fig_traces fig with
  | t :: _ => Ok t
  | [] => Err (LibError "IndexError: tuple index out of range")
  end.

(* UnivaritateEDAReport.__init__ *)
Definition report_init (s : series) : result report :=
  d <- describe_time_index s ;;
  Ok (mkReport s d).

Section Report.

Variable adfuller : list fval -> result adf_result.
Variable pacf_yw : list fval -> Z -> result (list fval).
Variable resample_mean : string -> series -> result series.
Variables rolling_mean rolling_std : Z -> series -> series.

(* generate_report: the figure written to time_series_plot.html *)
Definition generate_report : rmethod figure :=
  on_engine (plot_time_series false).

(* _ts_and_distribution_panel *)
Definition ts_and_distribution_panel : rmethod (list cell) :=
  f1 <-- on_engine (plot_time_series false) ;;;
  t1 <-- rfail (first_trace f1) ;;;
  s1 <-- get_ts ;;;
  let t2 := BoxTrace (values s1) (Some EmptyString) in
  f3 <-- on_engine (plot_distribution_histogram false "h") ;;;
  t3 <-- rfail (first_trace f3) ;;;
  f4 <-- on_engine (plot_time_series true) ;;;
  t4 <-- rfail (first_trace f4) ;;;
  s4 <-- get_ts ;;;
  let t5 := BoxTrace (values (differenced s4)) (Some EmptyString) in
  f6 <-- on_engine (plot_distribution_histogram true "h") ;;;
  t6 <-- rfail (first_trace f6) ;;;
  rret [(1, 1, t1); (1, 2, t2); (1, 3, t3); (2, 1, t4); (2, 2, t5); (2, 3, t6)]%nat.

(* _windowed_statistics_panel *)
Definition windowed_statistics_panel : rmethod figure :=
  on_engine (plot_rolling_statistics rolling_mean rolling_std 24).

(* _self_correlation_panel: the cadence is read from the description
   stored by __init__ *)
Definition self_correlation_panel : rmethod (list cell) :=
  fun r =>
    (p <-- rfail (self_correlation_params (inferred_frequency (index_description r))) ;;;
     let '(lag1, lag2, resample_to) := p in
     f1 <-- on_engine (plot_acf resample_mean lag1 None) ;;;
     t1 <-- rfail (first_trace f1) ;;;
     f2 <-- on_engine (plot_pacf pacf_yw resample_mean lag1 None) ;;;
     t2 <-- rfail (first_trace f2) ;;;
     f3 <-- on_engine (plot_acf resample_mean lag2 (Some resample_to)) ;;;
     t3 <-- rfail (first_trace f3) ;;;
     f4 <-- on_engine (plot_pacf pacf_yw resample_mean lag2 (Some resample_to)) ;;;
     t4 <-- rfail (first_trace f4) ;;;
     rret [(1, 1, t1); (1, 2, t2); (2, 1, t3); (2, 2, t4)]%nat) r.

(* generate(output_path), up to the rendering of the HTML text *)
Definition generate : rmethod report_content :=
  tsi <-- on_engine (pure_method describe_time_index) ;;;
  st <-- on_engine (describe_stationarity adfuller) ;;;
  ts_dist <-- ts_and_distribution_panel ;;;
  windowed <-- windowed_statistics_panel ;;;
  self_corr <-- self_correlation_panel ;;;
  rret (mkContent tsi st ts_dist windowed self_corr).

End Report.

(* ------------------------------------------------------------------ *)
(** * Concrete inputs *)

Definition fz (z : Z) : fval := Fin (inject_Z z).




(* three consecutive days *)
Definition ts_daily3 : series :=
  mkSeries Datetime64 [(0, fz 1); (one_day, fz 2); (2 * one_day, fz 3)] (Some "y").



(* a missing value in the middle of the series *)
Definition ts_nan : series :=
  mkSeries Datetime64 [(0, fz 1); (one_day, NaN); (2 * one_day, fz 3)] (Some "y").

(* resampling that keeps the series as it is *)
Definition resample_identity (rule : string) (s : series) : result series := Ok s.

(* a Yule-Walker kernel returning the leading 1.0 only *)
Definition pacf_yw_stub (xs : list fval) (nlags : Z) : result (list fval) := Ok [fz 1].

(* a constant series of four samples *)
Definition ts_const4 : series :=
  mkSeries Datetime64 [(0, fz 5); (one_day, fz 5); (2 * one_day, fz 5); (3 * one_day, fz 5)] (Some "y").

(* an ADF result with p-value 1/100 and the usual three critical values *)
Definition adfuller_stub (xs : list fval) : result adf_result :=
  Ok (mkADF (Fin (-4 # 1)) (Fin (1 # 100)) 1 (Z.of_nat (List.length xs))
            [("1%", Fin (-343 # 100)); ("5%", Fin (-286 # 100)); ("10%", Fin (-257 # 100))]
            (Fin (10 # 1))).


(* an unnamed daily series *)
Definition ts_unnamed : series :=
  mkSeries Datetime64 [(0, fz 1); (one_day, fz 2); (2 * one_day, fz 4)] None.

(* 49 hourly samples *)
Definition ts_hourly49 : series :=
  mkSeries Datetime64
    (combine (progression 0 one_hour 49) (map (fun i => fz (Z.of_nat i mod 7)) (seq 0 49)))
    (Some "y").

(* a resampling that returns 336 daily means *)
Definition resample_daily336 (rule : string) (s : series) : result series :=
  Ok (mkSeries Datetime64
        (combine (progression 0 one_day 336) (map (fun i => fz (Z.of_nat i mod 5)) (seq 0 336)))
        (sname s)).

(* rolling statistics that return the series itself *)
Definition rolling_identity (window : Z) (s : series) : series := s.

(* the mean and the deviations acovf works with *)
Definition acovf_mean (xs : list fval) : fval :=
  fdiv (fsum xs) (fval_of_nat (List.length xs)).

Definition acovf_dev (xs : list fval) : list fval :=
  map (fun x => fsub x (acovf_mean xs)) xs.

(* the description of ts_hourly49 *)
Definition tid_hourly49 : time_index_description :=
  mkTID (Some "h") 0 (48 * one_hour) 0 [].

(* ================================================================== *)
(** * Properties *)

(* ------------------------------------------------------------------ *)
(** ** Dict lemmas *)

Lemma dict_get_set_same k v d : dict_get k (dict_set k v d) = Some v.
Proof.
  induction d as [|[k' v'] t IH]; simpl.
  - rewrite String.eqb_refl. reflexivity.
  - destruct (String.eqb k k') eqn:E; simpl.
    + rewrite String.eqb_refl. reflexivity.
    + rewrite E. exact IH.
Qed.

Lemma dict_get_set_other k k' v d :
  String.eqb k k' = false -> dict_get k (dict_set k' v d) = dict_get k d.
Proof.
  intros Hne. induction d as [|[k2 v2] t IH]; simpl.
  - rewrite Hne. reflexivity.
  - destruct (String.eqb k' k2) eqn:E; simpl.
    + apply String.eqb_eq in E. subst k2. rewrite Hne. reflexivity.
    + destruct (String.eqb k k2); [reflexivity | exact IH].
Qed.

Lemma prefix_critical_neq k ck :
  (exists c r, k = String c r /\ c <> "c"%char) ->
  String.eqb k ("critical_value_" ++ ck) = false.
Proof.
  intros (c & r & -> & Hc). apply String.eqb_neq. simpl. intros H.
  injection H as H _. exact (Hc H).
Qed.

Lemma dict_get_fold_other k (cv : list (string * fval)) d :
  (exists c r, k = String c r /\ c <> "c"%char) ->
  dict_get k (fold_left (fun d kv => dict_set (fst kv) (snd kv) d)
                        (critical_value_entries cv) d) = dict_get k d.
Proof.
  intros Hk. revert d. induction cv as [|[ck cx] t IH]; intros d; simpl.
  - reflexivity.
  - rewrite IH. apply dict_get_set_other. apply prefix_critical_neq. exact Hk.
Qed.

Lemma string_append_inv_l (p a b : string) : p ++ a = p ++ b -> a = b.
Proof.
  induction p as [|c p IH]; simpl; intros H; [exact H|].
  injection H as H. apply IH. exact H.
Qed.

Lemma dict_get_fold_in k (cv : list (string * fval)) d v :
  dict_get ("critical_value_" ++ k)
           (fold_left (fun d kv => dict_set (fst kv) (snd kv) d)
                      (critical_value_entries cv) d) = Some v ->
  dict_get ("critical_value_" ++ k) d = Some v \/
  exists x, v = PFloat x /\ In (k, x) cv.
Proof.
  revert d. induction cv as [|[ck cx] t IH]; intros d H; simpl in H.
  - left. exact H.
  - destruct (IH _ H) as [Hd | (x & Hx & Hin)].
    + destruct (String.eqb ("critical_value_" ++ k) ("critical_value_" ++ ck)) eqn:E.
      * apply String.eqb_eq in E. apply string_append_inv_l in E. subst ck.
        rewrite dict_get_set_same in Hd. injection Hd as <-.
        right. exists cx. split; [reflexivity | left; reflexivity].
      * rewrite dict_get_set_other in Hd by exact E. left. exact Hd.
    + right. exists x. split; [exact Hx | right; exact Hin].
Qed.

(* ------------------------------------------------------------------ *)
(** ** C1: the stationarity verdict *)

(** C1. Whatever the held series and whatever adfuller returns for it,
    when describe_stationarity returns a dict, its "stationarity" entry is
    the boolean [p < c] (IEEE comparison: false when either side is NaN),
    where p is its "p_value" entry, i.e. adfuller's p-value, and c its
    "critical_value_5%" entry, a critical value adfuller stored under the
    "5%" key.  describe_stationarity takes no argument besides the engine,
    so the rule is fixed. *)
Theorem C1_stationarity_verdict
    (adfuller : list fval -> result adf_result) (s : series) (d : pydict)
    (H : describe_stationarity_pure adfuller s = Ok d) :
  exists r c,
    adfuller (values s) = Ok r /\
    dict_get "p_value" d = Some (PFloat (adf_pvalue r)) /\
    dict_get "critical_value_5%" d = Some (PFloat c) /\
    In ("5%", c) (adf_critvalues r) /\
    dict_get "stationarity" d = Some (PBool (flt (adf_pvalue r) c)).
Proof.
  unfold describe_stationarity_pure in H. simpl in H.
  destruct (adfuller (values s)) as [r|e] eqn:Hadf; simpl in H; [|discriminate].
  set (base := [("adf_statistic", PFloat (adf_stat r));
                ("p_value", PFloat (adf_pvalue r));
                ("used_lag", PInt (adf_usedlag r));
                ("n_obs", PInt (adf_nobs r));
                ("ic_best", PFloat (adf_icbest r))]) in H.
  set (full := fold_left (fun d kv => dict_set (fst kv) (snd kv) d)
                         (critical_value_entries (adf_critvalues r)) base) in H.
  assert (Hp : dict_get "p_value" full = Some (PFloat (adf_pvalue r))).
  { unfold full. rewrite dict_get_fold_other.
    - reflexivity.
    - exists "p"%char, "_value". split; [reflexivity | discriminate]. }
  rewrite Hp in H.
  destruct (dict_get "critical_value_5%" full) as [cv|] eqn:Hc; [|discriminate].
  destruct (dict_get_fold_in "5%" _ _ _ Hc) as [Hb | (c & -> & Hin)];
    [ subst base; simpl in Hb; discriminate |].
  simpl in H. injection H as <-.
  exists r, c. split; [reflexivity | split; [|split; [|split]]].
  - rewrite dict_get_set_other by reflexivity. exact Hp.
  - rewrite dict_get_set_other by reflexivity. exact Hc.
  - exact Hin.
  - apply dict_get_set_same.
Qed.

(* ------------------------------------------------------------------ *)
(** ** Lemmas on the time grid and on index_difference *)

Lemma in_progression g b s n :
  In g (progression b s n) <-> exists k, 0 <= k < Z.of_nat n /\ g = b + k * s.
Proof.
  revert b. induction n as [|n IH]; intros b; simpl.
  - split; [intros [] | intros (k & Hk & _); lia].
  - rewrite IH. split.
    + intros [<- | (k & Hk & ->)].
      * exists 0. lia.
      * exists (k + 1). lia.
    + intros (k & Hk & ->).
      destruct (Z.eq_dec k 0) as [->|Hk0]; [left; lia|].
      right. exists (k - 1). lia.
Qed.

(* the number of points generate_regular_range produces, for a positive
   stride: (end - start) // stride + 1 *)
Lemma date_range_count_pos b iend s :
  0 < s -> b <= iend ->
  - ((b - (b + (iend - b) / s * s + s / 2 + 1)) / s) = (iend - b) / s + 1.
Proof.
  intros Hs Hb.
  set (q := (iend - b) / s).
  replace (b - (b + q * s + s / 2 + 1)) with (- (q + 1) * s + (s - s / 2 - 1)) by lia.
  rewrite Z.div_add_l by lia.
  rewrite (Z.div_small (s - s / 2 - 1) s).
  - lia.
  - pose proof (Z.div_mod s 2 ltac:(lia)). pose proof (Z.mod_pos_bound s 2 ltac:(lia)).
    lia.
Qed.

Lemma in_generate_regular_range_pos g b iend s :
  0 < s -> b <= iend ->
  In g (generate_regular_range b iend s) <->
  exists k, 0 <= k /\ g = b + k * s /\ g <= iend.
Proof.
  intros Hs Hb. unfold generate_regular_range, arange. cbv zeta.
  replace (s =? 0) with false by (symmetry; apply Z.eqb_neq; lia).
  rewrite date_range_count_pos by lia.
  rewrite in_progression.
  pose proof (Z.div_pos (iend - b) s ltac:(lia) Hs).
  rewrite Z2Nat.id by lia.
  split.
  - intros (k & Hk & ->). exists k. split; [lia | split; [reflexivity|]].
    assert (k <= (iend - b) / s) by lia.
    pose proof (Z.mul_div_le (iend - b) s Hs). nia.
  - intros (k & Hk & -> & Hle). exists k. split; [|reflexivity].
    split; [lia|].
    assert (k <= (iend - b) / s) by (apply Z.div_le_lower_bound; lia).
    lia.
Qed.

Lemma generate_regular_range_neg_empty b iend s :
  s < 0 -> b < iend -> generate_regular_range b iend s = [].
Proof.
  intros Hs Hb. unfold generate_regular_range, arange. cbv zeta.
  replace (s =? 0) with false by (symmetry; apply Z.eqb_neq; lia).
  set (q := (iend - b) / s).
  pose proof (Z.div_mod (iend - b) s ltac:(lia)) as Hq.
  pose proof (Z.mod_neg_bound (iend - b) s Hs) as Hr.
  fold q in Hq.
  assert (Hq1 : q <= -1) by nia.
  pose proof (Z.div_mod s 2 ltac:(lia)). pose proof (Z.mod_pos_bound s 2 ltac:(lia)).
  set (x := b - (b + q * s + s / 2 + 1)).
  assert (Hx : x < 0) by (unfold x; nia).
  pose proof (Z.div_mod x s ltac:(lia)) as Hd.
  pose proof (Z.mod_neg_bound x s Hs) as Hm.
  assert (0 <= x / s) by nia.
  replace (Z.to_nat (- (x / s))) with 0%nat by lia.
  reflexivity.
Qed.

(* whatever the stride, the regular grid stays within [start, end] *)
Lemma generate_regular_range_bounds g b iend s :
  b <= iend -> In g (generate_regular_range b iend s) -> b <= g <= iend.
Proof.
  intros Hb Hg. destruct (Z.lt_trichotomy s 0) as [Hs | [Hs | Hs]].
  - destruct (Z.eq_dec b iend) as [<- | Hne].
    + unfold generate_regular_range, arange in Hg. cbv zeta in Hg.
      replace (s =? 0) with false in Hg by (symmetry; apply Z.eqb_neq; lia).
      rewrite Z.sub_diag, Z.div_0_l in Hg by lia.
      apply in_progression in Hg as (k & Hk & ->).
      set (x := b - (b + 0 * s + s / 2 + 1)) in Hk.
      pose proof (Z.div_mod s 2 ltac:(lia)). pose proof (Z.mod_pos_bound s 2 ltac:(lia)).
      pose proof (Z.div_mod x s ltac:(lia)) as Hd.
      pose proof (Z.mod_neg_bound x s Hs) as Hm.
      assert (Hx1 : x <= - s) by (unfold x; lia).
      assert (Hq : -1 <= x / s) by nia.
      assert (k = 0) by lia. subst k. lia.
    + rewrite generate_regular_range_neg_empty in Hg by lia. destruct Hg.
  - subst s. unfold generate_regular_range, arange in Hg. simpl in Hg. destruct Hg.
  - apply in_generate_regular_range_pos in Hg as (k & Hk & -> & Hle); [|exact Hs|exact Hb].
    split; [nia | exact Hle].
Qed.













(* ------------------------------------------------------------------ *)
(** ** Lemmas on DatetimeIndex.min and .max *)



Lemma nonnat_or_all_nat ts :
  (exists t, In t ts /\ is_NaT t = false) \/ forallb is_NaT ts = true.
Proof.
  induction ts as [|a t IH]; simpl; [right; reflexivity|].
  destruct (is_NaT a) eqn:Ea.
  - destruct IH as [(u & Hu & Hn) | H]; [left; exists u; auto | right; exact H].
  - left. exists a. auto.
Qed.








(* ------------------------------------------------------------------ *)
(** ** Lemmas on infer_freq, date_range and describe_time_index *)











(* ------------------------------------------------------------------ *)
(** ** Lemmas on regularly spaced indexes *)












(* ------------------------------------------------------------------ *)
(** ** C5: the index-type error *)



(* ------------------------------------------------------------------ *)
(** ** C2: no inferable cadence *)




(* ------------------------------------------------------------------ *)
(** ** C8: regularly sampled series *)




(* ------------------------------------------------------------------ *)
(** ** C3: the cadence-to-parameter policy *)

(** C3 (code bug). The policy table matches the literals 'M', 'h' and 'd'
    and has no default: every other inferred frequency, None included,
    leaves lag1 unbound.  But pandas names a daily cadence 'D', so on three
    consecutive days the report's correlation panel gets no parameters
    instead of (30, 365, 'w'). *)
Theorem C3_daily_cadence_unmatched :
  self_correlation_params (Some "M") = Ok (12, 60, "h") /\
  self_correlation_params (Some "h") = Ok (24, 168, "d") /\
  self_correlation_params (Some "d") = Ok (30, 365, "w") /\
  self_correlation_params None = Err (UnboundLocalError "lag1") /\
  (forall f, f <> "M" -> f <> "h" -> f <> "d" ->
     self_correlation_params (Some f) = Err (UnboundLocalError "lag1")) /\
  describe_time_index ts_daily3 = Ok (mkTID (Some "D") 0 (2 * one_day) 0 []) /\
  report_correlation_params ts_daily3 = Err (UnboundLocalError "lag1").
Proof.
  split; [reflexivity|]. split; [reflexivity|]. split; [reflexivity|].
  split; [reflexivity|]. split.
  - intros f HM Hh Hd. simpl.
    apply String.eqb_neq in HM, Hh, Hd. rewrite HM, Hh, Hd. reflexivity.
  - split; vm_compute; reflexivity.
Qed.

(* ------------------------------------------------------------------ *)
(** ** C4: lag counts *)






(* ------------------------------------------------------------------ *)
(** ** C6: the differenced series *)

Lemma fsub_fin_not_nan a b : is_finite a = true -> is_finite b = true ->
  is_nan (fsub a b) = false.
Proof. destruct a, b; simpl; try discriminate; reflexivity. Qed.

Lemma dropna_diff_from_finite prev (t : list (Z * fval)) :
  is_finite prev = true -> forallb (fun e => is_finite (snd e)) t = true ->
  filter (fun e => negb (is_nan (snd e))) (diff_from prev t) = diff_from prev t.
Proof.
  revert prev. induction t as [|[k v] t IH]; intros prev Hp Ht; simpl; [reflexivity|].
  simpl in Ht. apply andb_true_iff in Ht as [Hv Ht].
  rewrite fsub_fin_not_nan by assumption. simpl. f_equal. apply IH; assumption.
Qed.

Lemma differenced_finite k v t dt nm :
  forallb (fun e => is_finite (snd e)) ((k, v) :: t) = true ->
  entries (differenced (mkSeries dt ((k, v) :: t) nm)) = diff_from v t.
Proof.
  intros H. simpl in H. apply andb_true_iff in H as [Hv Ht].
  unfold differenced, dropna, series_diff. simpl.
  apply dropna_diff_from_finite; assumption.
Qed.

Lemma diff_from_length prev t : List.length (diff_from prev t) = List.length t.
Proof.
  revert prev. induction t as [|[k v] t IH]; intros prev; simpl; [reflexivity | rewrite IH; reflexivity].
Qed.

Lemma diff_from_labels prev t : map fst (diff_from prev t) = map fst t.
Proof.
  revert prev. induction t as [|[k v] t IH]; intros prev; simpl; [reflexivity | rewrite IH; reflexivity].
Qed.

Lemma diff_from_nth k0 prev t i k v k' v' :
  nth_error ((k0, prev) :: t) i = Some (k, v) ->
  nth_error ((k0, prev) :: t) (S i) = Some (k', v') ->
  nth_error (diff_from prev t) i = Some (k', fsub v' v).
Proof.
  revert k0 prev i. induction t as [|[k1 v1] t IH]; intros k0 prev i H1 H2.
  - destruct i; discriminate.
  - destruct i as [|i].
    + simpl in H1, H2. injection H1 as <- <-. injection H2 as <- <-. reflexivity.
    + simpl. apply (IH k1 v1 i); assumption.
Qed.

Lemma fsub_self_zero q : fval_is_zero (fsub (Fin q) (Fin q)) = true.
Proof.
  unfold fsub, fneg, fadd, fval_is_zero. apply Qeq_bool_iff.
  apply (Qeq_trans _ (q + - q)); [apply Qred_correct | apply Qplus_opp_r].
Qed.

Lemma diff_from_constant q prev t :
  prev = Fin q -> Forall (fun e => snd e = Fin q) t ->
  forallb (fun e => fval_is_zero (snd e)) (diff_from prev t) = true.
Proof.
  revert prev. induction t as [|[k v] t IH]; intros prev Hp Ht; [reflexivity|].
  inversion Ht as [|? ? Hv Ht']; subst. simpl in Hv. subst v.
  cbn [diff_from forallb snd].
  rewrite (IH (Fin q) eq_refl Ht'), fsub_self_zero. reflexivity.
Qed.

(** C6 (counterexample). On the series [1, NaN, 3] (length 3) the
    differenced series is empty, not of length 2: dropna also removes the
    NaN differences on both sides of a missing value. *)
Lemma C6_nan_shortens_difference : entries (differenced ts_nan) = [].
Proof. vm_compute. reflexivity. Qed.

(** C6 (amended). For every held series of length n >= 2 whose values are
    all finite (no NaN, no infinity), the differenced series has length
    n - 1, its index is the original index without its first timestamp,
    its value at position i is original[i+1] - original[i] (the entry at
    original position i+1), and a constant series differences to all
    zeros. *)
Theorem C6_difference_of_finite_series (s : series)
    (Hlen : (2 <= List.length (entries s))%nat)
    (Hfin : forallb (fun e => is_finite (snd e)) (entries s) = true) :
  List.length (entries (differenced s)) = (List.length (entries s) - 1)%nat /\
  labels (differenced s) = tl (labels s) /\
  (forall i k v k' v',
     nth_error (entries s) i = Some (k, v) ->
     nth_error (entries s) (S i) = Some (k', v') ->
     nth_error (entries (differenced s)) i = Some (k', fsub v' v)) /\
  (forall q, Forall (fun e => snd e = Fin q) (entries s) ->
     forallb (fun e => fval_is_zero (snd e)) (entries (differenced s)) = true).
Proof.
  destruct s as [dt es nm]. cbn [entries] in Hlen, Hfin |- *.
  destruct es as [|[k0 v0] t]; [simpl in Hlen; lia|].
  unfold labels. rewrite (differenced_finite k0 v0 t dt nm Hfin).
  split; [rewrite diff_from_length; simpl; lia|].
  split; [rewrite diff_from_labels; reflexivity|].
  split.
  - intros i k v k' v' H1 H2. eapply diff_from_nth; eassumption.
  - intros q Hq. inversion Hq as [|? ? Hv Ht]; subst. simpl in Hv.
    apply (diff_from_constant q); assumption.
Qed.


Lemma C6_difference_of_finite_series_witness :
  (2 <= List.length (entries ts_const4))%nat /\
  forallb (fun e => is_finite (snd e)) (entries ts_const4) = true /\
  List.length (entries (differenced ts_const4)) = 3%nat /\
  forallb (fun e => fval_is_zero (snd e)) (entries (differenced ts_const4)) = true.
Proof.
  assert (Hl : (2 <= List.length (entries ts_const4))%nat) by (simpl; lia).
  assert (Hf : forallb (fun e => is_finite (snd e)) (entries ts_const4) = true)
    by reflexivity.
  destruct (C6_difference_of_finite_series ts_const4 Hl Hf) as (Hn & _ & _ & Hz).
  split; [exact Hl | split; [exact Hf | split]].
  - rewrite Hn. reflexivity.
  - apply (Hz (inject_Z 5)). repeat constructor.
Defined.

(* ------------------------------------------------------------------ *)
(** ** C1: witness *)

Lemma C1_stationarity_verdict_witness :
  exists d, describe_stationarity_pure adfuller_stub ts_daily3 = Ok d /\
  exists r c,
    adfuller_stub (values ts_daily3) = Ok r /\
    dict_get "p_value" d = Some (PFloat (adf_pvalue r)) /\
    dict_get "critical_value_5%" d = Some (PFloat c) /\
    In ("5%", c) (adf_critvalues r) /\
    dict_get "stationarity" d = Some (PBool (flt (adf_pvalue r) c)).
Proof.
  eexists. split.
  - vm_compute. reflexivity.
  - apply C1_stationarity_verdict. vm_compute. reflexivity.
Defined.

(* ------------------------------------------------------------------ *)
(** ** C7: the only assignment of the held series *)

(** C7. For every engine call and every held series s, the held series
    after the call is the differenced series (ts.diff().dropna()) when the
    call is plot_distribution_histogram with differenced=True, whatever the
    orientation and even when the figure itself fails, and s itself for
    every other call: describe_time_index, plot_time_series (differenced or
    not), describe_distribution, make_box_plot, plot_rolling_statistics,
    describe_stationarity, describe_acf, describe_pacf, and plot_acf and
    plot_pacf with or without resampling.  Over a sequence of calls the
    held series is therefore differenced once per such histogram call. *)
Theorem C7_only_histogram_assigns
    (adfuller : list fval -> result adf_result)
    (pacf_yw : list fval -> Z -> result (list fval))
    (resample_mean : string -> series -> result series)
    (pd_min pd_max pd_mean pd_std pd_skew pd_kurtosis : list fval -> fval)
    (pd_quantile : Q -> list fval -> fval)
    (rolling_mean rolling_std : Z -> series -> series) :
  (forall o s,
     snd (run_op adfuller pacf_yw resample_mean pd_min pd_max pd_mean pd_std
                 pd_skew pd_kurtosis pd_quantile rolling_mean rolling_std o s) =
     if assigns_held_series o then differenced s else s) /\
  (forall os s,
     snd (run_ops adfuller pacf_yw resample_mean pd_min pd_max pd_mean pd_std
                  pd_skew pd_kurtosis pd_quantile rolling_mean rolling_std os s) =
     fold_left (fun s o => if assigns_held_series o then differenced s else s) os s).
Proof.
  assert (H1 : forall o s,
     snd (run_op adfuller pacf_yw resample_mean pd_min pd_max pd_mean pd_std
                 pd_skew pd_kurtosis pd_quantile rolling_mean rolling_std o s) =
     if assigns_held_series o then differenced s else s).
  { intros o s. destruct o as [| d | | d | w | [|] o | | n | n r | n | n r];
      reflexivity. }
  split; [exact H1|].
  induction os as [|o os IH]; intros s; [reflexivity|].
  simpl. rewrite <- (H1 o s).
  destruct (run_op adfuller pacf_yw resample_mean pd_min pd_max pd_mean pd_std
                   pd_skew pd_kurtosis pd_quantile rolling_mean rolling_std o s)
    as [r s1]; simpl.
  rewrite <- (IH s1).
  destruct (run_ops adfuller pacf_yw resample_mean pd_min pd_max pd_mean pd_std
                    pd_skew pd_kurtosis pd_quantile rolling_mean rolling_std os s1)
    as [rs s2]; reflexivity.
Qed.

(* ------------------------------------------------------------------ *)
(** ** C9: the significance band *)

(** C9. Whenever plot_acf or plot_pacf returns a figure, its two dashed
    lines are at +cv and -cv with cv = 1.96 / sqrt(n), n the length of the
    series actually used: that series is the held series when resample_to
    is None or the empty string, and the result of
    ts.resample(resample_to).mean().dropna() for a non-empty resample_to. *)
Theorem C9_band_uses_series_length
    (pacf_yw : list fval -> Z -> result (list fval))
    (resample_mean : string -> series -> result series)
    (nlags : Z) (rt : option string) (s : series) (fig : figure)
    (H : plot_acf_pure resample_mean nlags rt s = Ok fig \/
         plot_pacf_pure pacf_yw resample_mean nlags rt s = Ok fig) :
  exists u,
    fig_hlines fig = [spec_band (List.length (entries u));
                      Ropp (spec_band (List.length (entries u)))] /\
    (rt = None -> u = s) /\
    (rt = Some EmptyString -> u = s) /\
    (forall r, rt = Some r -> r <> EmptyString -> resample_mean r s = Ok u).
Proof.
  assert (Hu : forall u, ts_to_use resample_mean rt s = Ok u ->
    (rt = None -> u = s) /\ (rt = Some EmptyString -> u = s) /\
    (forall r, rt = Some r -> r <> EmptyString -> resample_mean r s = Ok u)).
  { intros u Ht. unfold ts_to_use in Ht.
    split; [|split].
    - intros ->. injection Ht as <-. reflexivity.
    - intros ->. simpl in Ht. injection Ht as <-. reflexivity.
    - intros r -> Hne. destruct (String.eqb_spec r EmptyString) as [E|_];
        [contradiction | exact Ht]. }
  assert (Hb : forall n cv, critical_band n = Ok cv -> cv = spec_band n).
  { intros n cv Hc. unfold critical_band in Hc.
    destruct (n =? 0)%nat; [discriminate|]. injection Hc as <-. reflexivity. }
  destruct H as [H | H];
    [unfold plot_acf_pure in H | unfold plot_pacf_pure in H];
    destruct (ts_to_use resample_mean rt s) as [u|e] eqn:Ht; simpl in H;
    try discriminate;
    [destruct (acf (values u) nlags) as [v|e]; simpl in H; try discriminate
    |destruct (pacf pacf_yw (values u) nlags) as [v|e]; simpl in H; try discriminate];
    destruct (critical_band (List.length (entries u))) as [cv|e] eqn:Hc;
    simpl in H; try discriminate;
    injection H as <-; exists u;
    (split; [simpl; rewrite (Hb _ _ Hc); reflexivity | exact (Hu u eq_refl)]).
Qed.

Lemma C9_band_uses_series_length_witness :
  exists fig, plot_acf_pure resample_identity 1 None ts_daily3 = Ok fig /\
  exists u,
    fig_hlines fig = [spec_band (List.length (entries u));
                      Ropp (spec_band (List.length (entries u)))] /\
    (None = @None string -> u = ts_daily3) /\
    (None = Some EmptyString -> u = ts_daily3) /\
    (forall r, None = Some r -> r <> EmptyString -> resample_identity r ts_daily3 = Ok u).
Proof.
  eexists. split.
  - vm_compute. reflexivity.
  - apply (C9_band_uses_series_length pacf_yw_stub resample_identity 1 None ts_daily3).
    left. vm_compute. reflexivity.
Defined.

(* ------------------------------------------------------------------ *)
(** ** Further properties of describe_acf *)

Lemma in_firstn_l {A} (x : A) n l : In x (firstn n l) -> In x l.
Proof. intros H. rewrite <- (firstn_skipn n l). apply in_or_app. left. exact H. Qed.

Lemma in_skipn_l {A} (x : A) n l : In x (skipn n l) -> In x l.
Proof. intros H. rewrite <- (firstn_skipn n l). apply in_or_app. right. exact H. Qed.

Lemma fdiv_nan_r v : fdiv v NaN = NaN.
Proof. destruct v; reflexivity. Qed.

Lemma fold_fadd_nan l : fold_left fadd l NaN = NaN.
Proof. induction l as [|x t IH]; [reflexivity | exact IH]. Qed.

Lemma fold_fadd_in_nan l acc : In NaN l -> fold_left fadd l acc = NaN.
Proof.
  revert acc. induction l as [|x t IH]; intros acc H; [destruct H|].
  destruct H as [-> | H]; simpl.
  - replace (fadd acc NaN) with NaN by (destruct acc; reflexivity). apply fold_fadd_nan.
  - apply IH. exact H.
Qed.

Lemma map_combine_diag (f : fval -> fval -> fval) l :
  map (fun p => f (fst p) (snd p)) (combine l l) = map (fun x => f x x) l.
Proof. induction l as [|x t IH]; simpl; [reflexivity | rewrite IH; reflexivity]. Qed.

Lemma acovf_hd xs : xs <> [] ->
  hd NaN (acovf xs) =
  fdiv (fsum (map (fun x => fmul x x) (acovf_dev xs))) (fval_of_nat (List.length xs)).
Proof.
  intros Hne. destruct xs as [|x t]; [congruence|].
  unfold acovf. cbn [List.length seq map hd]. rewrite Nat.sub_0_r, skipn_O.
  rewrite firstn_all2 by (cbn [List.length]; rewrite length_map; lia).
  rewrite map_combine_diag. reflexivity.
Qed.

Lemma acovf_entries xs v : In v (acovf xs) ->
  exists k, fdiv (fsum (map (fun p => fmul (fst p) (snd p))
                           (combine (firstn (List.length xs - k) (acovf_dev xs))
                                    (skipn k (acovf_dev xs)))))
                 (fval_of_nat (List.length xs)) = v.
Proof.
  unfold acovf. intros H. apply in_map_iff in H as (k & <- & _). exists k. reflexivity.
Qed.

Lemma acf_ok xs nlags : xs <> [] ->
  acf xs nlags =
  Ok (map (fun v => fdiv v (hd NaN (acovf xs))) (py_slice_upto (acovf xs) (nlags + 1))).
Proof. destruct xs; [congruence | reflexivity]. Qed.

Lemma lag_dict_all_nan v :
  (forall x, In x v -> x = NaN) -> Forall (fun kv => snd kv = PFloat NaN) (lag_dict v).
Proof.
  intros H. unfold lag_dict. apply Forall_forall. intros kv Hin.
  apply in_map_iff in Hin as (i & <- & _). cbn [snd].
  destruct (nth_in_or_default i v NaN) as [Hi | ->]; [rewrite (H _ Hi)|]; reflexivity.
Qed.

(** On a series with a NaN value, describe_acf returns NaN at every lag:
    the mean, all deviations and the lag-0 autocovariance the ACF is divided
    by are NaN. *)
Theorem describe_acf_nan_everywhere (s : series) (nlags : Z)
    (Hnan : In NaN (values s)) :
  exists d, describe_acf s nlags = Ok d /\ Forall (fun kv => snd kv = PFloat NaN) d.
Proof.
  assert (Hne : values s <> []) by (destruct (values s); [destruct Hnan | discriminate]).
  assert (H0 : hd NaN (acovf (values s)) = NaN).
  { rewrite (acovf_hd _ Hne).
    assert (Hmu : acovf_mean (values s) = NaN).
    { unfold acovf_mean, fsum. rewrite fold_fadd_in_nan by exact Hnan. reflexivity. }
    unfold acovf_dev. rewrite Hmu.
    destruct (values s) as [|x t]; [congruence|].
    cbn [map]. unfold fsum. cbn [fold_left].
    replace (fadd (Fin 0) (fmul (fsub x NaN) (fsub x NaN))) with NaN
      by (destruct x; reflexivity).
    rewrite fold_fadd_nan. reflexivity. }
  unfold describe_acf. rewrite (acf_ok _ nlags Hne). cbn [bind].
  eexists. split; [reflexivity|]. apply lag_dict_all_nan.
  intros x Hx. apply in_map_iff in Hx as (v & <- & _). rewrite H0. apply fdiv_nan_r.
Qed.

Lemma describe_acf_nan_everywhere_witness :
  In NaN (values ts_nan) /\
  exists d, describe_acf ts_nan 1 = Ok d /\ Forall (fun kv => snd kv = PFloat NaN) d.
Proof.
  assert (H : In NaN (values ts_nan)) by (right; left; reflexivity).
  split; [exact H | exact (describe_acf_nan_everywhere ts_nan 1 H)].
Defined.

(* ------------------------------------------------------------------ *)
(** ** describe_stationarity: when it returns *)

Lemma dict_get_set_some k k' v d :
  dict_get k d <> None -> dict_get k (dict_set k' v d) <> None.
Proof.
  intros H. destruct (String.eqb k k') eqn:E.
  - apply String.eqb_eq in E. subst k'. rewrite dict_get_set_same. discriminate.
  - rewrite dict_get_set_other by exact E. exact H.
Qed.

Lemma dict_get_fold_keep k (l : list (string * pyval)) d :
  dict_get k d <> None ->
  dict_get k (fold_left (fun d kv => dict_set (fst kv) (snd kv) d) l d) <> None.
Proof.
  revert d. induction l as [|kv t IH]; intros d H; [exact H|].
  simpl. apply IH. apply dict_get_set_some. exact H.
Qed.

Lemma dict_get_fold_some k (cv : list (string * fval)) d :
  In k (map fst cv) ->
  dict_get ("critical_value_" ++ k)
           (fold_left (fun d kv => dict_set (fst kv) (snd kv) d)
                      (critical_value_entries cv) d) <> None.
Proof.
  revert d. induction cv as [|[ck cx] t IH]; intros d H; [destruct H|].
  destruct H as [H | H]; cbn [fst] in H.
  - subst ck. simpl. apply dict_get_fold_keep. rewrite dict_get_set_same. discriminate.
  - simpl. apply IH. exact H.
Qed.

(** describe_stationarity fails exactly when adfuller fails (with
    adfuller's error) or when adfuller's critical values have no "5%" key
    (with KeyError 'critical_value_5%'); in every other case it returns a
    dict. *)
Theorem describe_stationarity_outcome
    (adfuller : list fval -> result adf_result) (s : series) :
  match adfuller (values s) with
  | Err e => describe_stationarity_pure adfuller s = Err e
  | Ok r =>
      if existsb (String.eqb "5%") (map fst (adf_critvalues r))
      then exists d, describe_stationarity_pure adfuller s = Ok d
      else describe_stationarity_pure adfuller s = Err (KeyError "critical_value_5%")
  end.
Proof.
  unfold describe_stationarity_pure.
  destruct (adfuller (values s)) as [r|e]; cbn [bind]; [|reflexivity].
  set (base := [("adf_statistic", PFloat (adf_stat r));
                ("p_value", PFloat (adf_pvalue r));
                ("used_lag", PInt (adf_usedlag r));
                ("n_obs", PInt (adf_nobs r));
                ("ic_best", PFloat (adf_icbest r))]).
  set (full := fold_left (fun d kv => dict_set (fst kv) (snd kv) d)
                         (critical_value_entries (adf_critvalues r)) base).
  assert (Hp : dict_get "p_value" full = Some (PFloat (adf_pvalue r))).
  { unfold full. rewrite dict_get_fold_other.
    - reflexivity.
    - exists "p"%char, "_value". split; [reflexivity | discriminate]. }
  rewrite Hp.
  destruct (existsb (String.eqb "5%") (map fst (adf_critvalues r))) eqn:E5.
  - apply existsb_exists in E5 as (k & Hk & Ek). apply String.eqb_eq in Ek. subst k.
    pose proof (dict_get_fold_some "5%" (adf_critvalues r) base Hk) as Hs.
    fold full in Hs.
    destruct (dict_get "critical_value_5%" full) as [cv|] eqn:Hc; [|contradiction].
    destruct (dict_get_fold_in "5%" _ _ _ Hc) as [Hb | (c & -> & _)];
      [subst base; simpl in Hb; discriminate |].
    eexists. reflexivity.
  - destruct (dict_get "critical_value_5%" full) as [cv|] eqn:Hc; [|reflexivity].
    exfalso. destruct (dict_get_fold_in "5%" _ _ _ Hc) as [Hb | (c & _ & Hin)];
      [subst base; simpl in Hb; discriminate |].
    assert (Hex : existsb (String.eqb "5%") (map fst (adf_critvalues r)) = true).
    { apply existsb_exists. exists "5%". split; [|apply String.eqb_refl].
      apply in_map_iff. exists ("5%", c). split; [reflexivity | exact Hin]. }
    congruence.
Qed.

(* ------------------------------------------------------------------ *)
(** ** Figures of an unnamed series *)



(* ------------------------------------------------------------------ *)
(** ** The report *)

Lemma rbind_ok_inv {A B} (m : rmethod A) (k : A -> rmethod B) r b r'' :
  rbind m k r = (Ok b, r'') -> exists a r', m r = (Ok a, r') /\ k a r' = (Ok b, r'').
Proof.
  unfold rbind. destruct (m r) as [[a|e] r']; intros H; [eauto | discriminate].
Qed.

Lemma rbind_err {A B} (m : rmethod A) (k : A -> rmethod B) r e r' :
  m r = (Err e, r') -> rbind m k r = (Err e, r').
Proof. unfold rbind. intros ->. reflexivity. Qed.

Lemma rbind_ok {A B} (m : rmethod A) (k : A -> rmethod B) r a r' :
  m r = (Ok a, r') -> rbind m k r = k a r'.
Proof. unfold rbind. intros ->. reflexivity. Qed.

Lemma on_engine_pure {A} (f : series -> result A) s d :
  on_engine (pure_method f) (mkReport s d) = (f s, mkReport s d).
Proof. reflexivity. Qed.

Lemma ts_panel_spec s d :
  match sname s with
  | Some n =>
      ts_and_distribution_panel (mkReport s d) =
        (Ok [(1, 1, Scatter (labels s) (values s) (Some n));
             (1, 2, BoxTrace (values s) (Some EmptyString));
             (1, 3, HistogramTrace true (values s));
             (2, 1, Scatter (labels (differenced s)) (values (differenced s)) (Some n));
             (2, 2, BoxTrace (values (differenced s)) (Some EmptyString));
             (2, 3, HistogramTrace true (values (differenced s)))]%nat,
         mkReport (differenced s) d)
  | None =>
      exists msg, ts_and_distribution_panel (mkReport s d) = (Err (TypeError msg), mkReport s d)
  end.
Proof. destruct s as [dt es [n|]]; [reflexivity | eexists; reflexivity]. Qed.

Lemma self_correlation_params_ok f lag1 lag2 rs :
  self_correlation_params f = Ok (lag1, lag2, rs) -> rs <> EmptyString.
Proof.
  destruct f as [f|]; [|discriminate]. cbn [self_correlation_params].
  destruct (String.eqb f "M"); [intros H; injection H as _ _ <-; discriminate|].
  destruct (String.eqb f "h"); [intros H; injection H as _ _ <-; discriminate|].
  destruct (String.eqb f "d"); [intros H; injection H as _ _ <-; discriminate|].
  discriminate.
Qed.

Lemma plot_pacf_pure_guard pacf_yw resample_mean nlags rt s fig :
  plot_pacf_pure pacf_yw resample_mean nlags rt s = Ok fig ->
  exists u, ts_to_use resample_mean rt s = Ok u /\
            Z.max nlags 1 <= Z.of_nat (List.length (entries u)) / 2.
Proof.
  unfold plot_pacf_pure. destruct (ts_to_use resample_mean rt s) as [u|e]; cbn [bind];
    [|discriminate].
  unfold pacf, pacf_guard. unfold values. rewrite length_map.
  destruct (Z.of_nat (List.length (entries u)) / 2 <? Z.max nlags 1) eqn:E;
    cbn [bind]; [discriminate|].
  intros _. exists u. split; [reflexivity | apply Z.ltb_ge; exact E].
Qed.

Lemma self_correlation_panel_inv pacf_yw resample_mean s d cells r' :
  self_correlation_panel pacf_yw resample_mean (mkReport s d) = (Ok cells, r') ->
  r' = mkReport s d /\
  exists lag1 lag2 rs,
    self_correlation_params (inferred_frequency d) = Ok (lag1, lag2, rs) /\
    plot_pacf_pure pacf_yw resample_mean lag1 None s <> Err (LibError EmptyString) /\
    (exists f, plot_pacf_pure pacf_yw resample_mean lag1 None s = Ok f) /\
    (exists f, plot_pacf_pure pacf_yw resample_mean lag2 (Some rs) s = Ok f).
Proof.
  intros H. unfold self_correlation_panel in H.
  apply rbind_ok_inv in H as ([[l1 l2] rs] & r1 & H1 & H).
  unfold rfail in H1. injection H1 as E1 <-. cbn [index_description] in E1.
  cbn beta iota in H.
  apply rbind_ok_inv in H as (f1 & r2 & H2 & H).
  unfold plot_acf in H2. rewrite on_engine_pure in H2. injection H2 as _ <-.
  apply rbind_ok_inv in H as (t1 & r3 & H3 & H). unfold rfail in H3. injection H3 as _ <-.
  apply rbind_ok_inv in H as (f2 & r4 & H4 & H).
  unfold plot_pacf in H4. rewrite on_engine_pure in H4. injection H4 as E4 <-.
  apply rbind_ok_inv in H as (t2 & r5 & H5 & H). unfold rfail in H5. injection H5 as _ <-.
  apply rbind_ok_inv in H as (f3 & r6 & H6 & H).
  unfold plot_acf in H6. rewrite on_engine_pure in H6. injection H6 as _ <-.
  apply rbind_ok_inv in H as (t3 & r7 & H7 & H). unfold rfail in H7. injection H7 as _ <-.
  apply rbind_ok_inv in H as (f4 & r8 & H8 & H).
  unfold plot_pacf in H8. rewrite on_engine_pure in H8. injection H8 as E8 <-.
  apply rbind_ok_inv in H as (t4 & r9 & H9 & H). unfold rfail in H9. injection H9 as _ <-.
  unfold rret in H. injection H as _ <-.
  split; [reflexivity|].
  exists l1, l2, rs. split; [exact E1|].
  split; [rewrite E4; discriminate|].
  split; [exists f2; exact E4 | exists f4; exact E8].
Qed.

(** _ts_and_distribution_panel on a named held series s returns six cells:
    row 1 plots s (line, box, horizontal histogram), row 2 plots its
    differenced series ts.diff().dropna() (line, box, horizontal
    histogram), and the engine is left holding the differenced series. On
    an unnamed series it raises a TypeError at its first plot, leaving the
    engine unchanged. *)
Theorem report_ts_panel (s : series) (d : time_index_description) :
  match sname s with
  | Some n =>
      ts_and_distribution_panel (mkReport s d) =
        (Ok [(1, 1, Scatter (labels s) (values s) (Some n));
             (1, 2, BoxTrace (values s) (Some EmptyString));
             (1, 3, HistogramTrace true (values s));
             (2, 1, Scatter (labels (differenced s)) (values (differenced s)) (Some n));
             (2, 2, BoxTrace (values (differenced s)) (Some EmptyString));
             (2, 3, HistogramTrace true (values (differenced s)))]%nat,
         mkReport (differenced s) d)
  | None =>
      exists msg, ts_and_distribution_panel (mkReport s d) = (Err (TypeError msg), mkReport s d)
  end.
Proof. exact (ts_panel_spec s d). Qed.

(** When generate returns, its index table describes the held series s and
    its stationarity table tests s, but its windowed-statistics panel and
    its self-correlation panel are computed from the differenced series
    ts.diff().dropna() (the distribution panel reassigns the engine's
    series halfway), with the cadence policy still read from the index
    description stored by __init__; afterwards the engine holds the
    differenced series. *)
Theorem generate_after_differencing
    (adfuller : list fval -> result adf_result)
    (pacf_yw : list fval -> Z -> result (list fval))
    (resample_mean : string -> series -> result series)
    (rolling_mean rolling_std : Z -> series -> series)
    (s : series) (d : time_index_description) (c : report_content) (r' : report)
    (H : generate adfuller pacf_yw resample_mean rolling_mean rolling_std (mkReport s d)
         = (Ok c, r')) :
  describe_time_index s = Ok (tsi_table c) /\
  describe_stationarity_pure adfuller s = Ok (stationarity_table c) /\
  fst (ts_and_distribution_panel (mkReport s d)) = Ok (ts_dist_panel c) /\
  fst (plot_rolling_statistics rolling_mean rolling_std 24 (differenced s)) =
    Ok (windowed_panel c) /\
  fst (self_correlation_panel pacf_yw resample_mean (mkReport (differenced s) d)) =
    Ok (self_corr_panel c) /\
  r' = mkReport (differenced s) d.
Proof.
  unfold generate in H.
  apply rbind_ok_inv in H as (tsi & r1 & H1 & H).
  rewrite on_engine_pure in H1. injection H1 as E1 <-.
  apply rbind_ok_inv in H as (st & r2 & H2 & H).
  unfold describe_stationarity in H2. rewrite on_engine_pure in H2. injection H2 as E2 <-.
  apply rbind_ok_inv in H as (p1 & r3 & H3 & H).
  pose proof (ts_panel_spec s d) as P. revert P.
  destruct (sname s) as [n|] eqn:Hn; intros P;
    [| destruct P as (msg & P); rewrite P in H3; discriminate].
  rewrite P in H3. injection H3 as E3 <-.
  apply rbind_ok_inv in H as (p2 & r4 & H4 & H).
  unfold windowed_statistics_panel, plot_rolling_statistics in H4.
  rewrite on_engine_pure in H4. injection H4 as E4 <-.
  apply rbind_ok_inv in H as (p3 & r5 & H5 & H).
  destruct (self_correlation_panel pacf_yw resample_mean (mkReport (differenced s) d))
    as [x r5'] eqn:E5.
  injection H5 as -> ->.
  pose proof (self_correlation_panel_inv _ _ _ _ _ _ E5) as [-> _].
  unfold rret in H. injection H as <- <-. cbn [tsi_table stationarity_table ts_dist_panel
    windowed_panel self_corr_panel].
  split; [exact E1|]. split; [exact E2|].
  split; [rewrite P, E3; reflexivity|].
  split; [rewrite <- E4; reflexivity|]. split; [reflexivity | reflexivity].
Qed.

Lemma generate_after_differencing_witness :
  exists c r',
    generate adfuller_stub pacf_yw_stub resample_daily336 rolling_identity rolling_identity
             (mkReport ts_hourly49 tid_hourly49) = (Ok c, r') /\
  (describe_time_index ts_hourly49 = Ok (tsi_table c) /\
   describe_stationarity_pure adfuller_stub ts_hourly49 = Ok (stationarity_table c) /\
   fst (ts_and_distribution_panel (mkReport ts_hourly49 tid_hourly49)) = Ok (ts_dist_panel c) /\
   fst (plot_rolling_statistics rolling_identity rolling_identity 24 (differenced ts_hourly49)) =
     Ok (windowed_panel c) /\
   fst (self_correlation_panel pacf_yw_stub resample_daily336
          (mkReport (differenced ts_hourly49) tid_hourly49)) = Ok (self_corr_panel c) /\
   r' = mkReport (differenced ts_hourly49) tid_hourly49).
Proof.
  eexists. eexists. split.
  - vm_compute. reflexivity.
  - apply generate_after_differencing. vm_compute. reflexivity.
Defined.

(** Whenever _self_correlation_panel returns, the inferred frequency stored
    by __init__ is one of 'M', 'h', 'd', giving (lag1, lag2, resample_to),
    the held series has at least 2 * lag1 samples and its resampling to
    resample_to succeeds with at least 2 * lag2 samples (the PACF lag guard
    max(nlags, 1) <= nobs // 2 at both lag counts); the panel leaves the
    report unchanged. *)
Theorem self_correlation_panel_lengths
    (pacf_yw : list fval -> Z -> result (list fval))
    (resample_mean : string -> series -> result series)
    (s : series) (d : time_index_description) (cells : list cell) (r' : report)
    (H : self_correlation_panel pacf_yw resample_mean (mkReport s d) = (Ok cells, r')) :
  r' = mkReport s d /\
  exists lag1 lag2 rs u,
    self_correlation_params (inferred_frequency d) = Ok (lag1, lag2, rs) /\
    2 * lag1 <= Z.of_nat (List.length (entries s)) /\
    resample_mean rs s = Ok u /\
    2 * lag2 <= Z.of_nat (List.length (entries u)).
Proof.
  destruct (self_correlation_panel_inv _ _ _ _ _ _ H)
    as [Hr (l1 & l2 & rs & Hp & _ & (f1 & E1) & (f2 & E2))].
  split; [exact Hr|].
  destruct (plot_pacf_pure_guard _ _ _ _ _ _ E1) as (u1 & Hu1 & G1).
  destruct (plot_pacf_pure_guard _ _ _ _ _ _ E2) as (u & Hu & G2).
  cbn [ts_to_use] in Hu1. injection Hu1 as <-.
  cbn [ts_to_use] in Hu.
  pose proof (self_correlation_params_ok _ _ _ _ Hp) as Hrs.
  apply String.eqb_neq in Hrs. rewrite Hrs in Hu.
  exists l1, l2, rs, u. split; [exact Hp|].
  pose proof (Z.mul_div_le (Z.of_nat (List.length (entries s))) 2 ltac:(lia)).
  pose proof (Z.mul_div_le (Z.of_nat (List.length (entries u))) 2 ltac:(lia)).
  split; [lia|]. split; [exact Hu | lia].
Qed.

Lemma self_correlation_panel_lengths_witness :
  exists cells r',
    self_correlation_panel pacf_yw_stub resample_daily336
      (mkReport (differenced ts_hourly49) tid_hourly49) = (Ok cells, r') /\
  (r' = mkReport (differenced ts_hourly49) tid_hourly49 /\
   exists lag1 lag2 rs u,
     self_correlation_params (inferred_frequency tid_hourly49) = Ok (lag1, lag2, rs) /\
     2 * lag1 <= Z.of_nat (List.length (entries (differenced ts_hourly49))) /\
     resample_daily336 rs (differenced ts_hourly49) = Ok u /\
     2 * lag2 <= Z.of_nat (List.length (entries u))).
Proof.
  eexists. eexists. split.
  - vm_compute. reflexivity.
  - eapply (self_correlation_panel_lengths pacf_yw_stub). vm_compute. reflexivity.
Defined.

(** On an unnamed held series, generate never returns and generate_report
    raises a TypeError; the engine's series is not reassigned by
    generate_report. *)
Theorem report_unnamed_fails
    (adfuller : list fval -> result adf_result)
    (pacf_yw : list fval -> Z -> result (list fval))
    (resample_mean : string -> series -> result series)
    (rolling_mean rolling_std : Z -> series -> series)
    (s : series) (d : time_index_description) (Hn : sname s = None) :
  (exists e, fst (generate adfuller pacf_yw resample_mean rolling_mean rolling_std
                           (mkReport s d)) = Err e) /\
  (exists msg, generate_report (mkReport s d) = (Err (TypeError msg), mkReport s d)).
Proof.
  split.
  - unfold generate.
    unfold rbind at 1. rewrite on_engine_pure.
    destruct (describe_time_index s) as [tsi|e]; [|eexists; reflexivity].
    unfold rbind at 1. unfold describe_stationarity. rewrite on_engine_pure.
    destruct (describe_stationarity_pure adfuller s) as [st|e]; [|eexists; reflexivity].
    pose proof (ts_panel_spec s d) as P. rewrite Hn in P. destruct P as (msg & P).
    unfold rbind at 1. rewrite P. eexists. reflexivity.
  - destruct s as [dt es nm]. cbn [sname] in Hn. subst nm. eexists. reflexivity.
Qed.

Lemma report_unnamed_fails_witness :
  sname ts_unnamed = None /\
  ((exists e, fst (generate adfuller_stub pacf_yw_stub resample_daily336
                            rolling_identity rolling_identity
                            (mkReport ts_unnamed tid_hourly49)) = Err e) /\
   (exists msg, generate_report (mkReport ts_unnamed tid_hourly49) =
                (Err (TypeError msg), mkReport ts_unnamed tid_hourly49))).
Proof. split; [reflexivity | apply report_unnamed_fails; reflexivity]. Defined.

(* ------------------------------------------------------------------ *)
(** ** The correlation plots against the correlation dicts *)

Lemma map_nth_shift (v l : list fval) (k : nat) :
  (forall i, nth (k + i) l NaN = nth i v NaN) ->
  map (fun i => PFloat (nth i l NaN)) (seq k (List.length v)) = map PFloat v.
Proof.
  revert k. induction v as [|a t IH]; intros k Hk; [reflexivity|].
  cbn [List.length seq map]. f_equal.
  - specialize (Hk 0%nat). rewrite Nat.add_0_r in Hk. rewrite Hk. reflexivity.
  - apply IH. intros i. specialize (Hk (S i)).
    rewrite <- Nat.add_succ_comm in Hk. exact Hk.
Qed.

Lemma lag_dict_values v : map snd (lag_dict v) = map PFloat v.
Proof.
  unfold lag_dict. rewrite map_map. cbn [snd].
  apply map_nth_shift. intros i. reflexivity.
Qed.

Lemma lag_dict_length v : List.length (lag_dict v) = List.length v.
Proof. unfold lag_dict. rewrite length_map, length_seq. reflexivity. Qed.

(** Without resampling, whenever describe_acf returns a dict, plot_acf at
    the same nlags returns a figure whose single bar trace has x = 0, 1,
    ..., one bar per key of that dict, and bar heights equal to the dict's
    values in order. *)
Theorem plot_acf_bars_describe_acf
    (resample_mean : string -> series -> result series)
    (s : series) (nlags : Z) (d : pydict) (H : describe_acf s nlags = Ok d) :
  exists fig ys,
    plot_acf_pure resample_mean nlags None s = Ok fig /\
    fig_traces fig = [BarTrace (seq 0 (List.length d)) ys] /\
    map PFloat ys = map snd d.
Proof.
  unfold describe_acf in H.
  destruct (acf (values s) nlags) as [v|e] eqn:Ha; cbn [bind] in H; [|discriminate].
  injection H as <-.
  assert (Hn : (List.length (entries s) =? 0)%nat = false).
  { destruct (entries s) eqn:Es; [|reflexivity].
    unfold values in Ha. rewrite Es in Ha. discriminate. }
  unfold plot_acf_pure. cbn [ts_to_use bind]. rewrite Ha. cbn [bind].
  unfold critical_band. rewrite Hn. cbn [bind].
  eexists. exists v. split; [reflexivity|]. cbn [correlation_figure fig_traces].
  rewrite lag_dict_length, lag_dict_values. split; reflexivity.
Qed.

Lemma plot_acf_bars_describe_acf_witness :
  exists d, describe_acf ts_daily3 2 = Ok d /\
  (exists fig ys,
     plot_acf_pure resample_identity 2 None ts_daily3 = Ok fig /\
     fig_traces fig = [BarTrace (seq 0 (List.length d)) ys] /\
     map PFloat ys = map snd d).
Proof.
  eexists. split.
  - vm_compute. reflexivity.
  - apply plot_acf_bars_describe_acf. vm_compute. reflexivity.
Defined.

(** Without resampling, whenever describe_pacf returns a dict, plot_pacf at
    the same nlags returns a figure whose single bar trace has one bar per
    key of that dict, at x = 0, 1, ..., with heights equal to the dict's
    values in order. *)
Theorem plot_pacf_bars_describe_pacf
    (pacf_yw : list fval -> Z -> result (list fval))
    (resample_mean : string -> series -> result series)
    (s : series) (nlags : Z) (d : pydict)
    (H : describe_pacf_pure pacf_yw s nlags = Ok d) :
  exists fig ys,
    plot_pacf_pure pacf_yw resample_mean nlags None s = Ok fig /\
    fig_traces fig = [BarTrace (seq 0 (List.length d)) ys] /\
    map PFloat ys = map snd d.
Proof.
  unfold describe_pacf_pure in H.
  destruct (pacf pacf_yw (values s) nlags) as [v|e] eqn:Hp; cbn [bind] in H;
    [|discriminate].
  injection H as <-.
  assert (Hn : (List.length (entries s) =? 0)%nat = false).
  { unfold pacf, pacf_guard in Hp. unfold values in Hp. rewrite length_map in Hp.
    destruct (entries s) eqn:Es; [|reflexivity].
    cbn [List.length Z.of_nat] in Hp.
    destruct (0 / 2 <? Z.max nlags 1) eqn:E; [discriminate|].
    apply Z.ltb_ge in E. change (0 / 2) with 0 in E. lia. }
  unfold plot_pacf_pure. cbn [ts_to_use bind]. rewrite Hp. cbn [bind].
  unfold critical_band. rewrite Hn. cbn [bind].
  eexists. exists v. split; [reflexivity|]. cbn [correlation_figure fig_traces].
  rewrite lag_dict_length, lag_dict_values. split; reflexivity.
Qed.

Lemma plot_pacf_bars_describe_pacf_witness :
  exists d, describe_pacf_pure pacf_yw_stub ts_daily3 1 = Ok d /\
  (exists fig ys,
     plot_pacf_pure pacf_yw_stub resample_identity 1 None ts_daily3 = Ok fig /\
     fig_traces fig = [BarTrace (seq 0 (List.length d)) ys] /\
     map PFloat ys = map snd d).
Proof.
  eexists. split.
  - vm_compute. reflexivity.
  - apply plot_pacf_bars_describe_pacf. vm_compute. reflexivity.
Defined.
